(** * CAF DROM-COM analyzer: the data generator of [Caf.py]
    A shallow embedding of [CAF_DROMCOMAnalyzer]: the per-territory
    configuration table, the nineteen yearly series of
    [generate_financial_data], the in-place trend pass [_add_caf_trends]
    and the growth figures of [_generate_financial_insights].
    Numbers are the program's own: Python [int] is [Z], Python [float] is
    IEEE-754 binary64 ([PrimFloat.float], round to nearest even), so a
    product such as [base * growth * multiplier * noise] is the same
    sequence of roundings as in the source. *)

From Stdlib Require Import ZArith Floats Uint63 Lia.
From stdpp Require Import gmap strings list fin_maps.

#[local] Set Warnings "-inexact-float".
#[local] Open Scope Z_scope.

(** ** Numbers *)

(** Python converts an [int] operand to [float] before a mixed operation.
    The conversion is exact below 2^53, which covers every integer this
    program handles (years, loop indices, baselines). *)
Definition float_of_int (z : Z) : float :=
  if z <? 0 then PrimFloat.opp (PrimFloat.of_uint63 (Uint63.of_Z (- z)))
  else PrimFloat.of_uint63 (Uint63.of_Z z).

Definition float_of_nat (n : nat) : float := float_of_int (Z.of_nat n).

(** ** Territory configuration *)

Record Config := mkConfig {
  allocataires_base : Z;
  budget_base : Z;
  specificites : list string
}.

#[global] Instance Config_inhabited : Inhabited Config :=
  populate (mkConfig 0 0 []).

(** The literal dictionary [configs] of [_get_territoire_config], built in
    source order; later keys are inserted last. *)
Definition configs : gmap string Config :=
  <["default" := mkConfig 50000 200 ["prestations_familiales"; "logement"; "solidarite"]]>
  (<["Nouvelle-Calédonie" := mkConfig 105000 380 ["nickel"; "vieillesse"; "precarite"]]>
  (<["Polynésie française" := mkConfig 95000 320 ["isolement"; "tourisme"; "jeunesse"]]>
  (<["Wallis-et-Futuna" := mkConfig 8000 55 ["traditions"; "jeunesse"; "isolement"]]>
  (<["Saint-Pierre-et-Miquelon" := mkConfig 3500 35 ["isolement"; "vieillesse"; "petite_enfance"]]>
  (<["Saint-Barthélemy" := mkConfig 5000 45 ["vieillesse"; "tourisme"; "revenus_eleves"]]>
  (<["Saint-Martin" := mkConfig 18000 85 ["tourisme"; "petite_enfance"; "precarite"]]>
  (<["Mayotte" := mkConfig 65000 280 ["jeunesse"; "familles_nombreuses"; "precarite_elevee"]]>
  (<["La Réunion" := mkConfig 220000 680 ["precarite"; "emploi"; "familles_monoparentales"]]>
  (<["Guyane" := mkConfig 85000 380 ["jeunesse"; "familles_nombreuses"; "precarite"]]>
  (<["Martinique" := mkConfig 110000 420 ["vieillesse"; "dependance"; "handicap"]]>
  (<["Guadeloupe" := mkConfig 120000 450 ["familles_nombreuses"; "precarite"; "vieillesse"]]>
   ∅))))))))))).

(** [configs.get(self.territoire, configs["default"])]: the fallback
    [configs["default"]] is evaluated first, then the lookup. *)
Definition _get_territoire_config (territoire : string) : Config :=
  let fallback := configs !!! "default" in
  default fallback (configs !! territoire).

(** The eleven territories offered by [main]. *)
Definition territoires : list string :=
  ["Guadeloupe"; "Martinique"; "Guyane"; "La Réunion"; "Mayotte";
   "Saint-Martin"; "Saint-Barthélemy"; "Saint-Pierre-et-Miquelon";
   "Wallis-et-Futuna"; "Polynésie française"; "Nouvelle-Calédonie"].

(** The preset table read as a list of (name, bundle) pairs, one per named
    territory, and the default bundle. *)
Definition preset_table : list (string * Config) :=
  [("Guadeloupe", mkConfig 120000 450 ["familles_nombreuses"; "precarite"; "vieillesse"]);
   ("Martinique", mkConfig 110000 420 ["vieillesse"; "dependance"; "handicap"]);
   ("Guyane", mkConfig 85000 380 ["jeunesse"; "familles_nombreuses"; "precarite"]);
   ("La Réunion", mkConfig 220000 680 ["precarite"; "emploi"; "familles_monoparentales"]);
   ("Mayotte", mkConfig 65000 280 ["jeunesse"; "familles_nombreuses"; "precarite_elevee"]);
   ("Saint-Martin", mkConfig 18000 85 ["tourisme"; "petite_enfance"; "precarite"]);
   ("Saint-Barthélemy", mkConfig 5000 45 ["vieillesse"; "tourisme"; "revenus_eleves"]);
   ("Saint-Pierre-et-Miquelon", mkConfig 3500 35 ["isolement"; "vieillesse"; "petite_enfance"]);
   ("Wallis-et-Futuna", mkConfig 8000 55 ["traditions"; "jeunesse"; "isolement"]);
   ("Polynésie française", mkConfig 95000 320 ["isolement"; "tourisme"; "jeunesse"]);
   ("Nouvelle-Calédonie", mkConfig 105000 380 ["nickel"; "vieillesse"; "precarite"])].

Definition default_bundle : Config :=
  mkConfig 50000 200 ["prestations_familiales"; "logement"; "solidarite"].

(** ** The analyzer object *)

Record Analyzer := mkAnalyzer {
  territoire : string;
  start_year : Z;
  end_year : Z;
  config : Config
}.

(** [CAF_DROMCOMAnalyzer.__init__] (the colour palette is used by the
    charts only and is left out). *)
Definition __init__ (territoire_name : string) : Analyzer :=
  {| territoire := territoire_name;
     start_year := 2002;
     end_year := 2025;
     config := _get_territoire_config territoire_name |}.

(** ** The random generator *)

(** [np.random.normal(loc, scale)] reads and advances numpy's process-wide
    generator. The generator state is threaded explicitly: a computation
    that may draw is a function from the state to a result and the next
    state. *)

Definition Rand (St A : Type) : Type := St → A * St.

Definition ret {St A} (x : A) : Rand St A := λ s, (x, s).

Definition bind {St A B} (m : Rand St A) (k : A → Rand St B) : Rand St B :=
  λ s, let (x, s') := m s in k x s'.

Notation "x <- m ;; k" := (bind m (λ x, k))
  (at level 100, m at next level, right associativity).

(** [for i, date in enumerate(dates): out.append(body)] *)
Fixpoint for_enumerate {St A} (body : nat → Z → Rand St A) (i : nat)
    (dates : list Z) : Rand St (list A) :=
  match dates with
  | [] => ret []
  | date :: rest =>
      x <- body i date ;;
      xs <- for_enumerate body (S i) rest ;;
      ret (x :: xs)
  end.

(** [n] successive draws [np.random.normal(loc, scale)]. *)
Fixpoint draw_n {St} (normal : float → float → Rand St float) (loc scale : float)
    (n : nat) : Rand St (list float) :=
  match n with
  | O => ret []
  | S n => x <- normal loc scale ;; xs <- draw_n normal loc scale n ;; ret (x :: xs)
  end.

(** A generator whose draws all return [c], whatever its state. *)
Definition noise_fixed_at {St} (c : float) (normal : float → float → Rand St float) : Prop :=
  ∀ loc scale s, (normal loc scale s).1 = c.

(** A generator whose every draw is the constant [c]: the noise factor
    fixed, the state counting the draws made. *)
Definition fixed_noise (c : float) : float → float → Rand nat float :=
  λ loc scale k, (c, S k).

(** ** Dates *)

(** [pd.date_range(start=f'{start}-01-01', end=f'{end}-12-31', freq='Y')]
    is the list of year ends from [start] to [end]; only [date.year] is
    ever read, so a date is its year. The list is empty when [end] is
    before [start]. The model is that of pandas for years whose first and
    last day are representable timestamps (1678 to 2261). *)
Definition date_range (start stop : Z) : list Z := seqZ start (stop - start + 1).

(** ** Growth tiers *)

(** The three-way choice every series method repeats:
    [if self.territoire in ["Mayotte", "Guyane"]: ... elif self.territoire
    in ["La Réunion", "Polynésie française"]: ... else: ...]. *)
Definition by_tier {A} (self : Analyzer) (very_high high moderate : A) : A :=
  if decide (territoire self ∈ ["Mayotte"; "Guyane"]) then very_high
  else if decide (territoire self ∈ ["La Réunion"; "Polynésie française"]) then high
  else moderate.

(** [x in self.config["specificites"]] *)
Definition has_tag (self : Analyzer) (tag : string) : bool :=
  bool_decide (tag ∈ specificites (config self)).

(** ** The yearly series *)

Section Series.
Context {RandomState : Type}.

(** [np.random.normal(loc, scale)] *)
Variable np_random_normal : float → float → Rand RandomState float.

#[local] Open Scope float_scope.

Definition _simulate_allocataires (self : Analyzer) (dates : list Z) : list float :=
  let base_allocataires := allocataires_base (config self) in
  imap (λ i date,
    let growth_rate := by_tier self 0.025 0.018 0.012 in
    let growth := 1 + growth_rate * float_of_nat i in
    float_of_int base_allocataires * growth) dates.

Definition _simulate_prestations (self : Analyzer) (dates : list Z)
    : Rand RandomState (list float) :=
  let base_prestations := float_of_int (budget_base (config self)) * 0.85 in
  for_enumerate (λ i date,
    let growth := by_tier self (1 + 0.028 * float_of_nat i)
                               (1 + 0.022 * float_of_nat i)
                               (1 + 0.018 * float_of_nat i) in
    noise <- np_random_normal 1 0.07 ;;
    ret (base_prestations * growth * noise)) 0 dates.

Definition _simulate_total_revenue (self : Analyzer) (dates : list Z)
    : Rand RandomState (list float) :=
  let base_revenue := budget_base (config self) in
  for_enumerate (λ i date,
    let growth_rate := by_tier self 0.042 0.035 0.028 in
    let growth := 1 + growth_rate * float_of_nat i in
    noise <- np_random_normal 1 0.08 ;;
    ret (float_of_int base_revenue * growth * noise)) 0 dates.

Definition _simulate_social_contributions (self : Analyzer) (dates : list Z)
    : Rand RandomState (list float) :=
  let base_contributions := float_of_int (budget_base (config self)) * 0.65 in
  for_enumerate (λ i date,
    let growth := by_tier self (1 + 0.035 * float_of_nat i)
                               (1 + 0.028 * float_of_nat i)
                               (1 + 0.022 * float_of_nat i) in
    noise <- np_random_normal 1 0.06 ;;
    ret (base_contributions * growth * noise)) 0 dates.

(** The [increase] of [_simulate_state_contributions] for one year. *)
Definition state_increase (self : Analyzer) (year : Z) : float :=
  if (year >=? 2010)%Z then
    by_tier self (1 + 0.022 * float_of_int (year - 2010))
                 (1 + 0.018 * float_of_int (year - 2010))
                 (1 + 0.015 * float_of_int (year - 2010))
  else 1.

Definition _simulate_state_contributions (self : Analyzer) (dates : list Z)
    : Rand RandomState (list float) :=
  let base_state := float_of_int (budget_base (config self)) * 0.30 in
  for_enumerate (λ i date,
    let year := date in
    let increase := state_increase self year in
    noise <- np_random_normal 1 0.05 ;;
    ret (base_state * increase * noise)) 0 dates.

Definition _simulate_other_revenue (self : Analyzer) (dates : list Z)
    : Rand RandomState (list float) :=
  let base_other := float_of_int (budget_base (config self)) * 0.05 in
  for_enumerate (λ i date,
    let growth := 1 + 0.025 * float_of_nat i in
    noise <- np_random_normal 1 0.10 ;;
    ret (base_other * growth * noise)) 0 dates.

Definition _simulate_total_expenses (self : Analyzer) (dates : list Z)
    : Rand RandomState (list float) :=
  let base_expenses := float_of_int (budget_base (config self)) * 0.95 in
  for_enumerate (λ i date,
    let growth := by_tier self (1 + 0.038 * float_of_nat i)
                               (1 + 0.032 * float_of_nat i)
                               (1 + 0.026 * float_of_nat i) in
    noise <- np_random_normal 1 0.07 ;;
    ret (base_expenses * growth * noise)) 0 dates.

(** The [multiplier] of [_simulate_family_benefits]. *)
Definition family_benefits_multiplier (self : Analyzer) : float :=
  if has_tag self "familles_nombreuses" then 1.4 else 1.0.

Definition _simulate_family_benefits (self : Analyzer) (dates : list Z)
    : Rand RandomState (list float) :=
  let base_family := float_of_int (budget_base (config self)) * 0.45 in
  let multiplier := family_benefits_multiplier self in
  for_enumerate (λ i date,
    let growth := by_tier self (1 + 0.032 * float_of_nat i)
                               (1 + 0.028 * float_of_nat i)
                               (1 + 0.022 * float_of_nat i) in
    noise <- np_random_normal 1 0.06 ;;
    ret (base_family * growth * multiplier * noise)) 0 dates.

Definition _simulate_housing_benefits (self : Analyzer) (dates : list Z)
    : Rand RandomState (list float) :=
  let base_housing := float_of_int (budget_base (config self)) * 0.25 in
  for_enumerate (λ i date,
    let growth := by_tier self (1 + 0.035 * float_of_nat i)
                               (1 + 0.03 * float_of_nat i)
                               (1 + 0.024 * float_of_nat i) in
    noise <- np_random_normal 1 0.08 ;;
    ret (base_housing * growth * noise)) 0 dates.

(** The [multiplier] of [_simulate_solidarity_benefits]. *)
Definition solidarity_benefits_multiplier (self : Analyzer) : float :=
  if has_tag self "precarite" then 1.5 else 1.0.

Definition _simulate_solidarity_benefits (self : Analyzer) (dates : list Z)
    : Rand RandomState (list float) :=
  let base_solidarity := float_of_int (budget_base (config self)) * 0.20 in
  let multiplier := solidarity_benefits_multiplier self in
  for_enumerate (λ i date,
    let growth := by_tier self (1 + 0.04 * float_of_nat i)
                               (1 + 0.035 * float_of_nat i)
                               (1 + 0.028 * float_of_nat i) in
    noise <- np_random_normal 1 0.09 ;;
    ret (base_solidarity * growth * multiplier * noise)) 0 dates.

Definition _simulate_management_costs (self : Analyzer) (dates : list Z)
    : Rand RandomState (list float) :=
  let base_management := float_of_int (budget_base (config self)) * 0.05 in
  for_enumerate (λ i date,
    let growth := 1 + 0.02 * float_of_nat i in
    noise <- np_random_normal 1 0.04 ;;
    ret (base_management * growth * noise)) 0 dates.

(** The [improvement] of [_simulate_coverage_rate] for one year. *)
Definition coverage_improvement (year : Z) : float :=
  if (year >=? 2010)%Z then 1 + 0.005 * float_of_int (year - 2010) else 1.

Definition _simulate_coverage_rate (self : Analyzer) (dates : list Z)
    : Rand RandomState (list float) :=
  for_enumerate (λ i date,
    let base_rate := by_tier self 0.85 0.88 0.92 in
    let year := date in
    let improvement := coverage_improvement year in
    noise <- np_random_normal 1 0.03 ;;
    ret (base_rate * improvement * noise)) 0 dates.

(** The [improvement] of [_simulate_management_ratio] for one year. *)
Definition management_improvement (year : Z) : float :=
  if (year >=? 2010)%Z then 1 - 0.003 * float_of_int (year - 2010) else 1.

Definition _simulate_management_ratio (self : Analyzer) (dates : list Z)
    : Rand RandomState (list float) :=
  for_enumerate (λ i date,
    let base_ratio :=
      if decide (territoire self ∈ ["Saint-Pierre-et-Miquelon"; "Wallis-et-Futuna"])
      then 0.075
      else if decide (territoire self ∈ ["Mayotte"; "Guyane"]) then 0.065
      else 0.055 in
    let year := date in
    let improvement := management_improvement year in
    noise <- np_random_normal 1 0.02 ;;
    ret (base_ratio * improvement * noise)) 0 dates.

(** The [improvement] of [_simulate_account_balance] for one year. *)
Definition balance_improvement (year : Z) : float :=
  if (year >=? 2010)%Z then 1 + 0.01 * float_of_int (year - 2010) else 1.

Definition _simulate_account_balance (self : Analyzer) (dates : list Z)
    : Rand RandomState (list float) :=
  for_enumerate (λ i date,
    let base_balance := float_of_int (budget_base (config self)) * 0.03 in
    let year := date in
    let improvement := balance_improvement year in
    noise <- np_random_normal 1 0.15 ;;
    ret (base_balance * improvement * noise)) 0 dates.

(** The [multiplier] of [_simulate_family_allocations]. *)
Definition family_allocations_multiplier (self : Analyzer) : float :=
  if has_tag self "familles_nombreuses" then 1.4 else 1.0.

Definition _simulate_family_allocations (self : Analyzer) (dates : list Z)
    : Rand RandomState (list float) :=
  let base_allocation := float_of_int (budget_base (config self)) * 0.25 in
  let multiplier := family_allocations_multiplier self in
  for_enumerate (λ i date,
    let growth := by_tier self (1 + 0.03 * float_of_nat i)
                               (1 + 0.025 * float_of_nat i)
                               (1 + 0.02 * float_of_nat i) in
    noise <- np_random_normal 1 0.06 ;;
    ret (base_allocation * growth * multiplier * noise)) 0 dates.

(** The [multiplier] of [_simulate_ars]. *)
Definition ars_multiplier (self : Analyzer) : float :=
  if has_tag self "jeunesse" then 1.3 else 1.0.

Definition _simulate_ars (self : Analyzer) (dates : list Z)
    : Rand RandomState (list float) :=
  let base_ars := float_of_int (budget_base (config self)) * 0.08 in
  let multiplier := ars_multiplier self in
  for_enumerate (λ i date,
    let growth := by_tier self (1 + 0.032 * float_of_nat i)
                               (1 + 0.028 * float_of_nat i)
                               (1 + 0.022 * float_of_nat i) in
    noise <- np_random_normal 1 0.07 ;;
    ret (base_ars * growth * multiplier * noise)) 0 dates.

Definition _simulate_apl (self : Analyzer) (dates : list Z)
    : Rand RandomState (list float) :=
  let base_apl := float_of_int (budget_base (config self)) * 0.20 in
  for_enumerate (λ i date,
    let growth := by_tier self (1 + 0.036 * float_of_nat i)
                               (1 + 0.032 * float_of_nat i)
                               (1 + 0.026 * float_of_nat i) in
    noise <- np_random_normal 1 0.08 ;;
    ret (base_apl * growth * noise)) 0 dates.

(** The [multiplier] of [_simulate_rsa]. *)
Definition rsa_multiplier (self : Analyzer) : float :=
  if has_tag self "precarite" then 1.6 else 1.0.

Definition _simulate_rsa (self : Analyzer) (dates : list Z)
    : Rand RandomState (list float) :=
  let base_rsa := float_of_int (budget_base (config self)) * 0.15 in
  let multiplier := rsa_multiplier self in
  for_enumerate (λ i date,
    let growth := by_tier self (1 + 0.042 * float_of_nat i)
                               (1 + 0.038 * float_of_nat i)
                               (1 + 0.03 * float_of_nat i) in
    noise <- np_random_normal 1 0.09 ;;
    ret (base_rsa * growth * multiplier * noise)) 0 dates.

(** The [multiplier] of [_simulate_birth_grant]. *)
Definition birth_grant_multiplier (self : Analyzer) : float :=
  if has_tag self "jeunesse" then 1.5 else 1.0.

Definition _simulate_birth_grant (self : Analyzer) (dates : list Z)
    : Rand RandomState (list float) :=
  let base_birth := float_of_int (budget_base (config self)) * 0.04 in
  let multiplier := birth_grant_multiplier self in
  for_enumerate (λ i date,
    let growth := by_tier self (1 + 0.026 * float_of_nat i)
                               (1 + 0.022 * float_of_nat i)
                               (1 + 0.018 * float_of_nat i) in
    noise <- np_random_normal 1 0.10 ;;
    ret (base_birth * growth * multiplier * noise)) 0 dates.

End Series.

(** ** The data frame *)

(** The nineteen numeric columns of the frame, in the order
    [generate_financial_data] fills them. *)
Inductive Column :=
  | Nombre_Allocataires | Prestations_Versees
  | Recettes_Totales | Cotisations_Sociales | Contributions_Etat | Autres_Recettes
  | Depenses_Totales | Prestations_Familiales | Prestations_Logement
  | Prestations_Solidarite | Frais_Gestion
  | Taux_Couverture | Ratio_Gestion | Solde_Compte
  | Allocations_Familiales | ARS | APL | RSA | Prime_Naissance.

#[global] Instance Column_eq_dec : EqDecision Column.
Proof. solve_decision. Defined.

(** A [pd.DataFrame] with the default index 0..n-1: the integer column
    ['Annee'] and one list of floats per numeric column. *)
Record DataFrame := mkDataFrame {
  Annee : list Z;
  cols : Column → list float
}.

(** [df.loc[i, c]] *)
Definition loc (df : DataFrame) (i : nat) (c : Column) : option float :=
  cols df c !! i.

(** [df.loc[i, c] *= m]: the cell of row [i] in column [c] is overwritten
    with its product by [m]; no other cell changes. The trend pass only
    uses labels of the frame's own index; for a label that is absent pandas
    raises [KeyError], where this model leaves the frame as it is. *)
Definition loc_imul (i : nat) (c : Column) (m : float) (df : DataFrame) : DataFrame :=
  {| Annee := Annee df;
     cols := λ c', if decide (c' = c)
                   then alter (λ v, (v * m)%float) i (cols df c')
                   else cols df c' |}.

(** [df.iterrows()]: the index labels with the rows as they were when the
    iteration started. The loop body reads only [row['Annee']], which
    pandas hands over as the float of the integer year; it compares with
    the year bounds as the integer does. *)
Definition iterrows (df : DataFrame) : list (nat * Z) :=
  imap (λ i year, (i, year)) (Annee df).

(** ** The trend pass *)

(** The body of the loop of [_add_caf_trends] for row [i] of year [year]. *)
Definition add_caf_trends_row (i : nat) (year : Z) (df : DataFrame) : DataFrame :=
  (* Developpement initial (2002-2005) *)
  let df :=
    if (2002 <=? year) && (year <=? 2005) then
      loc_imul i Prestations_Familiales 1.15 (loc_imul i Contributions_Etat 1.1 df)
    else df in
  (* Reforme des prestations (2006-2010) *)
  let df :=
    if (2006 <=? year) && (year <=? 2010) then
      loc_imul i Prestations_Solidarite 1.3 (loc_imul i RSA 1.25 df)
    else df in
  (* Impact de la crise financiere (2008-2009) *)
  let df :=
    if (2008 <=? year) && (year <=? 2009) then
      loc_imul i RSA 1.15 (loc_imul i Cotisations_Sociales 0.92 df)
    (* Renforcement des politiques sociales (2011-2015) *)
    else if (2011 <=? year) && (year <=? 2015) then
      loc_imul i Allocations_Familiales 1.08 (loc_imul i Contributions_Etat 1.12 df)
    else df in
  (* Mouvements sociaux de 2017 et renforcement des aides *)
  let df :=
    if year =? 2017 then
      loc_imul i RSA 1.10 (loc_imul i Contributions_Etat 1.18 df)
    else df in
  (* Impact de la crise COVID-19 (2020-2021) *)
  let df :=
    if (2020 <=? year) && (year <=? 2021) then
      if year =? 2020 then
        loc_imul i RSA 1.35
          (loc_imul i Contributions_Etat 1.25 (loc_imul i Cotisations_Sociales 0.85 df))
      else df
    else df in
  (* Plan de relance post-COVID (2022-2025) *)
  let df :=
    if year >=? 2022 then
      loc_imul i ARS 1.10
        (loc_imul i Prestations_Logement 1.12 (loc_imul i Contributions_Etat 1.08 df))
    else df in
  df.

Definition _add_caf_trends (df : DataFrame) : DataFrame :=
  foldl (λ df '(i, year), add_caf_trends_row i year df) df (iterrows df).

(** ** The generator *)

Section Generator.
Context {RandomState : Type}.
Variable np_random_normal : float → float → Rand RandomState float.

Definition generate_financial_data (self : Analyzer) : Rand RandomState DataFrame :=
  let dates := date_range (start_year self) (end_year self) in
  let annee := dates in
  let nombre_allocataires := _simulate_allocataires self dates in
  prestations_versees <- _simulate_prestations np_random_normal self dates ;;
  recettes_totales <- _simulate_total_revenue np_random_normal self dates ;;
  cotisations_sociales <- _simulate_social_contributions np_random_normal self dates ;;
  contributions_etat <- _simulate_state_contributions np_random_normal self dates ;;
  autres_recettes <- _simulate_other_revenue np_random_normal self dates ;;
  depenses_totales <- _simulate_total_expenses np_random_normal self dates ;;
  prestations_familiales <- _simulate_family_benefits np_random_normal self dates ;;
  prestations_logement <- _simulate_housing_benefits np_random_normal self dates ;;
  prestations_solidarite <- _simulate_solidarity_benefits np_random_normal self dates ;;
  frais_gestion <- _simulate_management_costs np_random_normal self dates ;;
  taux_couverture <- _simulate_coverage_rate np_random_normal self dates ;;
  ratio_gestion <- _simulate_management_ratio np_random_normal self dates ;;
  solde_compte <- _simulate_account_balance np_random_normal self dates ;;
  allocations_familiales <- _simulate_family_allocations np_random_normal self dates ;;
  ars <- _simulate_ars np_random_normal self dates ;;
  apl <- _simulate_apl np_random_normal self dates ;;
  rsa <- _simulate_rsa np_random_normal self dates ;;
  prime_naissance <- _simulate_birth_grant np_random_normal self dates ;;
  let df :=
    {| Annee := annee;
       cols := λ c, match c with
         | Nombre_Allocataires => nombre_allocataires
         | Prestations_Versees => prestations_versees
         | Recettes_Totales => recettes_totales
         | Cotisations_Sociales => cotisations_sociales
         | Contributions_Etat => contributions_etat
         | Autres_Recettes => autres_recettes
         | Depenses_Totales => depenses_totales
         | Prestations_Familiales => prestations_familiales
         | Prestations_Logement => prestations_logement
         | Prestations_Solidarite => prestations_solidarite
         | Frais_Gestion => frais_gestion
         | Taux_Couverture => taux_couverture
         | Ratio_Gestion => ratio_gestion
         | Solde_Compte => solde_compte
         | Allocations_Familiales => allocations_familiales
         | ARS => ars
         | APL => apl
         | RSA => rsa
         | Prime_Naissance => prime_naissance
         end |} in
  ret (_add_caf_trends df).

End Generator.

(** ** Summary figures *)

(** [s.iloc[0]] and [s.iloc[-1]] of a column; [None] stands for the
    [IndexError] of an empty column. *)
Definition iloc_first (s : list float) : option float := head s.
Definition iloc_last (s : list float) : option float := last s.

(** [((s.iloc[-1] / s.iloc[0]) - 1) * 100], the growth percentage that
    [_generate_financial_insights] reports for [Recettes_Totales] and
    [Nombre_Allocataires]. *)
Definition growth_percentage (s : list float) : option float :=
  match iloc_last s, iloc_first s with
  | Some l, Some f => Some ((l / f - 1) * 100)%float
  | _, _ => None
  end.

Definition revenue_growth (df : DataFrame) : option float :=
  growth_percentage (cols df Recettes_Totales).

Definition allocataires_growth (df : DataFrame) : option float :=
  growth_percentage (cols df Nombre_Allocataires).

(** ** The era table of the specification *)

(** One line of the table of step 8: a year predicate, the field it
    targets and the multiplier. *)
Record Rule := mkRule {
  applies : Z → bool;
  field : Column;
  multiplier : float
}.

Definition between (lo hi year : Z) : bool := (lo <=? year) && (year <=? hi).
Definition exactly (y year : Z) : bool := year =? y.
Definition from (lo year : Z) : bool := lo <=? year.

(** The sixteen lines, in the order of the table. *)
Definition spec_era_table : list Rule :=
  [ mkRule (between 2002 2005) Contributions_Etat 1.10;
    mkRule (between 2002 2005) Prestations_Familiales 1.15;
    mkRule (between 2006 2010) RSA 1.25;
    mkRule (between 2006 2010) Prestations_Solidarite 1.30;
    mkRule (between 2008 2009) Cotisations_Sociales 0.92;
    mkRule (between 2008 2009) RSA 1.15;
    mkRule (between 2011 2015) Contributions_Etat 1.12;
    mkRule (between 2011 2015) Allocations_Familiales 1.08;
    mkRule (exactly 2017) Contributions_Etat 1.18;
    mkRule (exactly 2017) RSA 1.10;
    mkRule (exactly 2020) Cotisations_Sociales 0.85;
    mkRule (exactly 2020) Contributions_Etat 1.25;
    mkRule (exactly 2020) RSA 1.35;
    mkRule (from 2022) Contributions_Etat 1.08;
    mkRule (from 2022) Prestations_Logement 1.12;
    mkRule (from 2022) ARS 1.10 ].

(** The (field, multiplier) pairs of the lines whose predicate matches a
    year, in table order. *)
Definition rules_for (year : Z) : list (Column * float) :=
  flat_map (λ r, if applies r year then [(field r, multiplier r)] else [])
    spec_era_table.

(** The multipliers among a list of pairs that target column [c]. *)
Definition targeting (c : Column) (ups : list (Column * float)) : list float :=
  snd <$> List.filter (λ u, bool_decide (u.1 = c)) ups.

(** The multipliers the table lists for the cell (year, c). *)
Definition multipliers_for (year : Z) (c : Column) : list float :=
  targeting c (rules_for year).

(** A value multiplied by each multiplier in turn. *)
Definition scaled (ms : list float) (v : float) : float :=
  foldl PrimFloat.mul v ms.

(** A list of in-place products on row [i], applied first to last. *)
Definition apply_updates (i : nat) (ups : list (Column * float)) (df : DataFrame)
    : DataFrame :=
  foldl (λ df u, loc_imul i u.1 u.2 df) df ups.

(** One step of the loop of [_add_caf_trends]. *)
Definition trend_step (df : DataFrame) (row : nat * Z) : DataFrame :=
  let '(i, year) := row in add_caf_trends_row i year df.

(** The columns no line of the table targets. *)
Definition untargeted (c : Column) : bool :=
  match c with
  | Cotisations_Sociales | Contributions_Etat | Prestations_Familiales
  | Prestations_Logement | Prestations_Solidarite | Allocations_Familiales
  | ARS | RSA => false
  | _ => true
  end.

(** ** The frame before the trend pass *)

Section Untrended.
Context {RandomState : Type}.
Variable normal : float → float → Rand RandomState float.
Variable self : Analyzer.
Variable s0 : RandomState.

Let dates := date_range (start_year self) (end_year self).

(** The generator state before each series is drawn, in call order. *)
Definition state_before (c : Column) : RandomState :=
  let s1 := (_simulate_prestations normal self dates s0).2 in
  let s2 := (_simulate_total_revenue normal self dates s1).2 in
  let s3 := (_simulate_social_contributions normal self dates s2).2 in
  let s4 := (_simulate_state_contributions normal self dates s3).2 in
  let s5 := (_simulate_other_revenue normal self dates s4).2 in
  let s6 := (_simulate_total_expenses normal self dates s5).2 in
  let s7 := (_simulate_family_benefits normal self dates s6).2 in
  let s8 := (_simulate_housing_benefits normal self dates s7).2 in
  let s9 := (_simulate_solidarity_benefits normal self dates s8).2 in
  let s10 := (_simulate_management_costs normal self dates s9).2 in
  let s11 := (_simulate_coverage_rate normal self dates s10).2 in
  let s12 := (_simulate_management_ratio normal self dates s11).2 in
  let s13 := (_simulate_account_balance normal self dates s12).2 in
  let s14 := (_simulate_family_allocations normal self dates s13).2 in
  let s15 := (_simulate_ars normal self dates s14).2 in
  let s16 := (_simulate_apl normal self dates s15).2 in
  let s17 := (_simulate_rsa normal self dates s16).2 in
  match c with
  | Nombre_Allocataires | Prestations_Versees => s0
  | Recettes_Totales => s1
  | Cotisations_Sociales => s2
  | Contributions_Etat => s3
  | Autres_Recettes => s4
  | Depenses_Totales => s5
  | Prestations_Familiales => s6
  | Prestations_Logement => s7
  | Prestations_Solidarite => s8
  | Frais_Gestion => s9
  | Taux_Couverture => s10
  | Ratio_Gestion => s11
  | Solde_Compte => s12
  | Allocations_Familiales => s13
  | ARS => s14
  | APL => s15
  | RSA => s16
  | Prime_Naissance => s17
  end.

(** The series method that fills each column. *)
Definition simulate (c : Column) : Rand RandomState (list float) :=
  match c with
  | Nombre_Allocataires => ret (_simulate_allocataires self dates)
  | Prestations_Versees => _simulate_prestations normal self dates
  | Recettes_Totales => _simulate_total_revenue normal self dates
  | Cotisations_Sociales => _simulate_social_contributions normal self dates
  | Contributions_Etat => _simulate_state_contributions normal self dates
  | Autres_Recettes => _simulate_other_revenue normal self dates
  | Depenses_Totales => _simulate_total_expenses normal self dates
  | Prestations_Familiales => _simulate_family_benefits normal self dates
  | Prestations_Logement => _simulate_housing_benefits normal self dates
  | Prestations_Solidarite => _simulate_solidarity_benefits normal self dates
  | Frais_Gestion => _simulate_management_costs normal self dates
  | Taux_Couverture => _simulate_coverage_rate normal self dates
  | Ratio_Gestion => _simulate_management_ratio normal self dates
  | Solde_Compte => _simulate_account_balance normal self dates
  | Allocations_Familiales => _simulate_family_allocations normal self dates
  | ARS => _simulate_ars normal self dates
  | APL => _simulate_apl normal self dates
  | RSA => _simulate_rsa normal self dates
  | Prime_Naissance => _simulate_birth_grant normal self dates
  end.

(** [pd.DataFrame(data)] as [generate_financial_data] holds it just before
    it calls [_add_caf_trends]. *)
Definition untrended : DataFrame :=
  {| Annee := dates; cols := λ c, (simulate c (state_before c)).1 |}.

End Untrended.

(** ** Year-gated factors *)

Inductive Tier := very_high | high | moderate.

Definition tier_of (self : Analyzer) : Tier := by_tier self very_high high moderate.

(** The four series whose factor is gated on the year 2010. *)
Inductive GatedField := Gated_State | Gated_Coverage | Gated_Management | Gated_Balance.

(** The [increase] or [improvement] each of them computes for a year. *)
Definition gated_factor (f : GatedField) (self : Analyzer) (year : Z) : float :=
  match f with
  | Gated_State => state_increase self year
  | Gated_Coverage => coverage_improvement year
  | Gated_Management => management_improvement year
  | Gated_Balance => balance_improvement year
  end.

(** The yearly rate of the state contributions, by tier. *)
Definition state_rate (t : Tier) : float :=
  match t with
  | very_high => 0.022
  | high => 0.018
  | moderate => 0.015
  end%float.

(** A series built from the dates and the draws, one value per year. *)
Definition series (f : nat → Z → float → float) (dates : list Z) (draws : list float)
    : list float :=
  imap (λ i p, f i p.1 p.2) (zip dates draws).

(** The boost a tag gives when it is among the profile's tags. *)
Definition boost_if_tagged (self : Analyzer) (tag : string) (boost m : float) : Prop :=
  (tag ∈ specificites (config self) → m = boost) ∧
  (tag ∉ specificites (config self) → m = 1.0%float).

(** ** Calls and errors *)

(** The errors a call can end in. The first two are the kinds that section
    7 of the specification names; the source defines neither and has no
    [raise] statement. The last two are raised by the libraries the method
    calls: [OutOfBoundsDatetime] by [pd.date_range] for a date outside
    pandas' timestamp range, [OverflowError] by the conversion of an [int]
    too large for a [float]. *)
Inductive Exception :=
  | InvalidRangeError
  | InvalidProfileError
  | OutOfBoundsDatetime
  | OverflowError.

Inductive Outcome (A : Type) :=
  | Return (a : A)
  | Raise (e : Exception).
Arguments Return {A} a.
Arguments Raise {A} e.

(** Years whose first and last day pandas can represent as a timestamp. *)
Definition representable_years (self : Analyzer) : Prop :=
  1678 ≤ start_year self ≤ 2261 ∧ 1678 ≤ end_year self ≤ 2261.

(** A year that [f'{year}-01-01'] writes with four digits. *)
Definition four_digit (year : Z) : Prop := 1000 ≤ year ≤ 9999.

(** Four-digit years of which [f'{start}-01-01'] or [f'{end}-12-31'] lies
    outside pandas' timestamp range (1677-09-21 to 2262-04-11). *)
Definition date_out_of_bounds (self : Analyzer) : Prop :=
  four_digit (start_year self) ∧ four_digit (end_year self) ∧
  (start_year self < 1678 ∨ 2262 < start_year self ∨
   end_year self < 1677 ∨ 2261 < end_year self).

(** An [int] that [float_of_int] converts as Python does, without
    rounding, and one that Python refuses to convert. *)
Definition converts_exactly (z : Z) : Prop := Z.abs z < 2 ^ 53.
Definition too_large_for_float (z : Z) : Prop := 2 ^ 1024 ≤ Z.abs z.

Definition exact_baselines (self : Analyzer) : Prop :=
  converts_exactly (allocataires_base (config self)) ∧
  converts_exactly (budget_base (config self)).

(** The conversions that overflow in a run: [budget_base] is converted
    before the loops start, [allocataires_base] inside the loop of
    [_simulate_allocataires], so only when there is a year to loop on. *)
Definition baseline_overflows (self : Analyzer) : Prop :=
  too_large_for_float (budget_base (config self)) ∨
  (too_large_for_float (allocataires_base (config self)) ∧
   date_range (start_year self) (end_year self) ≠ []).

#[global] Instance representable_years_dec self : Decision (representable_years self).
Proof. unfold representable_years. apply _. Defined.

#[global] Instance date_out_of_bounds_dec self : Decision (date_out_of_bounds self).
Proof. unfold date_out_of_bounds, four_digit. apply _. Defined.

#[global] Instance exact_baselines_dec self : Decision (exact_baselines self).
Proof. unfold exact_baselines, converts_exactly. apply _. Defined.

#[global] Instance baseline_overflows_dec self : Decision (baseline_overflows self).
Proof. unfold baseline_overflows, too_large_for_float. apply _. Defined.

(** A call of [generate_financial_data] as its caller sees it. The method
    checks neither the order of the years nor the sign of the baselines.
    [pd.date_range] (line 94) comes first and raises when a date is out of
    bounds; the conversions of the baselines to [float] come next. Where
    this model does not follow the source (years not written with four
    digits, the border years 1677 and 2262, baselines between 2^53 and
    2^1024 that [float_of_int] would not round as Python does) the call
    has no modelled outcome. *)
Definition call_generate_financial_data {RandomState : Type}
    (normal : float → float → Rand RandomState float) (self : Analyzer)
    : RandomState → option (Outcome (DataFrame * RandomState)) :=
  λ s,
    if decide (date_out_of_bounds self) then Some (Raise OutOfBoundsDatetime)
    else if decide (representable_years self) then
      if decide (baseline_overflows self) then Some (Raise OverflowError)
      else if decide (exact_baselines self) then
        Some (Return (generate_financial_data normal self s))
      else None
    else None.

(** ** Sample inputs *)

(** A frame whose numeric cells all hold [v], one row per year. *)
Definition constant_frame (years : list Z) (v : float) : DataFrame :=
  {| Annee := years; cols := λ _, replicate (length years) v |}.

Definition four_year_frame : DataFrame := constant_frame [2007; 2008; 2013; 2020] 100.

Definition early_frame : DataFrame := constant_frame [2002; 2003] 100.

(** An analyzer whose year range is reversed, and one whose baselines are
    not positive. *)
Definition reversed_range : Analyzer :=
  {| territoire := "Guyane"; start_year := 2025; end_year := 2002;
     config := _get_territoire_config "Guyane" |}.

Definition non_positive_profile : Analyzer :=
  {| territoire := "Guyane"; start_year := 2002; end_year := 2003;
     config := mkConfig (-5) 0 ["jeunesse"] |}.

(** An analyzer whose last year pandas cannot represent, and one whose
    budget is too large for a float. *)
Definition late_range : Analyzer :=
  {| territoire := "Guyane"; start_year := 2260; end_year := 2262;
     config := _get_territoire_config "Guyane" |}.

Definition huge_budget : Analyzer :=
  {| territoire := "Guyane"; start_year := 2002; end_year := 2003;
     config := mkConfig 85000 (10 ^ 400) ["jeunesse"] |}.

(** A two-year frame whose total revenue is 100 then 110. *)
Definition two_year_frame : DataFrame :=
  {| Annee := [2002; 2003];
     cols := λ c, match c with
                  | Recettes_Totales => [100; 110]%float
                  | _ => [1; 1]%float
                  end |}.

(** ** The entry point *)

(** The territory [main] analyzes. [parsed] is the value of
    [int(input(...))], or [None] when [int] raises [ValueError]. A choice
    outside 1..len(territoires) raises [ValueError] too, and the handler
    of [(ValueError, IndexError)] selects La Réunion. *)
Definition select_territoire (parsed : option Z) : string :=
  match parsed with
  | None => "La Réunion"
  | Some choix =>
      if (choix <? 1) || (choix >? Z.of_nat (length territoires)) then "La Réunion"
      else match territoires !! Z.to_nat (choix - 1) with
           | Some territoire_selectionne => territoire_selectionne
           | None => "La Réunion"
           end
  end.

(** [analyzer = CAF_DROMCOMAnalyzer(territoire_selectionne)] *)
Definition main_analyzer (parsed : option Z) : Analyzer :=
  __init__ (select_territoire parsed).

(** ** Recommendations *)

(** The recommendation lines that part 7 of [_generate_financial_insights]
    prints under its heading, in order: two per tag among precarite,
    familles_nombreuses, jeunesse and isolement that the profile holds,
    then three for every territory. *)
Definition recommandations (self : Analyzer) : list string :=
  (if has_tag self "precarite" then
     ["• Renforcer les dispositifs de lutte contre la précarité";
      "• Développer les accompagnements vers l'emploi"]
   else []) ++
  (if has_tag self "familles_nombreuses" then
     ["• Adapter les prestations aux spécificités des familles nombreuses";
      "• Développer les services de soutien à la parentalité"]
   else []) ++
  (if has_tag self "jeunesse" then
     ["• Renforcer les aides à l'éducation et la formation";
      "• Développer les programmes d'insertion professionnelle des jeunes"]
   else []) ++
  (if has_tag self "isolement" then
     ["• Développer les services à distance et la dématérialisation";
      "• Renforcer les partenariats locaux pour améliorer l'accès aux droits"]
   else []) ++
  ["• Améliorer la digitalisation des services";
   "• Renforcer la prévention des impayés et le recouvrement";
   "• Optimiser la gestion des fonds pour maintenir l'équilibre financier"].

(** The four tags that part 7 tests. *)
Definition recommendation_tags : list string :=
  ["precarite"; "familles_nombreuses"; "jeunesse"; "isolement"].

(** ** Counting draws *)

(** A generator whose state is the number of draws made so far. *)
Definition counts_draws (normal : float → float → Rand nat float) : Prop :=
  ∀ loc scale k, (normal loc scale k).2 = S k.

(** The place of a column among the series that draw noise, in call
    order; the allocataires series draws none and shares place 0. *)
Definition draw_rank (c : Column) : nat :=
  match c with
  | Nombre_Allocataires | Prestations_Versees => 0
  | Recettes_Totales => 1
  | Cotisations_Sociales => 2
  | Contributions_Etat => 3
  | Autres_Recettes => 4
  | Depenses_Totales => 5
  | Prestations_Familiales => 6
  | Prestations_Logement => 7
  | Prestations_Solidarite => 8
  | Frais_Gestion => 9
  | Taux_Couverture => 10
  | Ratio_Gestion => 11
  | Solde_Compte => 12
  | Allocations_Familiales => 13
  | ARS => 14
  | APL => 15
  | RSA => 16
  | Prime_Naissance => 17
  end.

(** A float that is neither an infinity nor NaN and is above zero. *)
Definition positive_finite (v : float) : bool :=
  ((0 <? v) && (v <? PrimFloat.infinity))%float.

(** ** Territory groups *)

(** Two analyzers whose territories fall in the same hard-coded groups:
    the two growth groups that every series method tests, and the group of
    small territories that [_simulate_management_ratio] tests. *)
Definition same_groups (a b : Analyzer) : Prop :=
  (territoire a ∈ ["Mayotte"; "Guyane"] ↔ territoire b ∈ ["Mayotte"; "Guyane"]) ∧
  (territoire a ∈ ["La Réunion"; "Polynésie française"]
     ↔ territoire b ∈ ["La Réunion"; "Polynésie française"]) ∧
  (territoire a ∈ ["Saint-Pierre-et-Miquelon"; "Wallis-et-Futuna"]
     ↔ territoire b ∈ ["Saint-Pierre-et-Miquelon"; "Wallis-et-Futuna"]).

Definition all_columns : list Column :=
  [Nombre_Allocataires; Prestations_Versees; Recettes_Totales;
   Cotisations_Sociales; Contributions_Etat; Autres_Recettes;
   Depenses_Totales; Prestations_Familiales; Prestations_Logement;
   Prestations_Solidarite; Frais_Gestion; Taux_Couverture; Ratio_Gestion;
   Solde_Compte; Allocations_Familiales; ARS; APL; RSA; Prime_Naissance].

(** Every cell of every column is finite and above zero. *)
Definition all_positive (df : DataFrame) : bool :=
  forallb (λ c, forallb positive_finite (cols df c)) all_columns.

(** * Properties *)

(** ** The resolver *)

Lemma configs_default : configs !!! "default" = default_bundle.
Proof. vm_compute. reflexivity. Qed.

Lemma configs_lookup_preset name cfg :
  (name, cfg) ∈ preset_table → configs !! name = Some cfg.
Proof.
  unfold preset_table. rewrite !elem_of_cons, elem_of_nil.
  intros H. repeat destruct H as [H|H]; try contradiction;
    injection H as -> ->; vm_compute; reflexivity.
Qed.

Lemma configs_lookup_other name :
  name ∉ preset_table.*1 → configs !! name = None ∨ name = "default".
Proof.
  intros Hn. destruct (decide (name = "default")) as [->|Hd]; [by right|left].
  cbn in Hn. rewrite !not_elem_of_cons in Hn. destruct_and!.
  unfold configs. rewrite !lookup_insert_ne by congruence.
  apply lookup_empty.
Qed.

Lemma get_territoire_config_default name :
  name ∉ preset_table.*1 → _get_territoire_config name = default_bundle.
Proof.
  intros H. unfold _get_territoire_config. rewrite configs_default.
  destruct (configs_lookup_other _ H) as [->| ->]; [done|].
  vm_compute. reflexivity.
Qed.

(** C2. For every name of the eleven-territory preset table the resolver
    returns exactly the bundle stored for it, and for every other string it
    returns the default bundle (population 50,000, budget 200, tags
    prestations_familiales, logement, solidarite). The resolver is a total
    function of the name alone, so it cannot fail or touch any state. *)
Theorem C2_resolver_presets_and_default :
  length preset_table = 11%nat ∧
  preset_table.*1 = territoires ∧
  (∀ name cfg, (name, cfg) ∈ preset_table → _get_territoire_config name = cfg) ∧
  (∀ name, name ∉ preset_table.*1 → _get_territoire_config name = default_bundle).
Proof.
  split; [reflexivity|]. split; [reflexivity|]. split.
  - intros name cfg H. unfold _get_territoire_config.
    by rewrite (configs_lookup_preset _ _ H).
  - apply get_territoire_config_default.
Qed.

(** ** Cells under in-place products *)

Lemma Annee_loc_imul i c m df : Annee (loc_imul i c m df) = Annee df.
Proof. reflexivity. Qed.

Lemma loc_loc_imul i c m df j c' :
  loc (loc_imul i c m df) j c' =
  if decide (c' = c ∧ j = i) then (λ v, v * m)%float <$> loc df j c'
  else loc df j c'.
Proof.
  unfold loc, loc_imul; simpl.
  destruct (decide (c' = c)) as [->|Hc].
  - destruct (decide (j = i)) as [->|Hj].
    + rewrite decide_True by done. apply list_lookup_alter_eq.
    + rewrite decide_False by tauto. by apply list_lookup_alter_ne.
  - rewrite decide_False by tauto. done.
Qed.

Lemma Annee_apply_updates i ups df : Annee (apply_updates i ups df) = Annee df.
Proof.
  revert df. induction ups as [|u ups IH]; intros df; [done|].
  unfold apply_updates in *. simpl. by rewrite IH.
Qed.

Lemma loc_apply_updates ups i df j c :
  loc (apply_updates i ups df) j c =
  if decide (j = i) then scaled (targeting c ups) <$> loc df j c
  else loc df j c.
Proof.
  revert df. induction ups as [|[c0 m] ups IH]; intros df.
  - simpl. destruct (decide (j = i)); [|done].
    unfold scaled, targeting. simpl. by destruct (loc df j c).
  - change (apply_updates i ((c0, m) :: ups) df)
      with (apply_updates i ups (loc_imul i c0 m df)).
    rewrite IH, loc_loc_imul.
    destruct (decide (j = i)) as [->|Hj]; [|by rewrite decide_False by tauto].
    unfold targeting. simpl.
    destruct (decide (c = c0)) as [->|Hc].
    + rewrite decide_True by done. rewrite bool_decide_eq_true_2 by done.
      simpl. by destruct (loc df i c0).
    + rewrite decide_False by tauto.
      rewrite bool_decide_eq_false_2 by congruence. done.
Qed.

(** ** One row of the trend pass is the matching lines of the table *)

Ltac split_year :=
  repeat match goal with
  | |- context [(?a >=? ?b)%Z] => rewrite (Z.geb_leb a b)
  | |- context [(?a <=? ?b)%Z] => destruct (Z.leb_spec a b); try lia
  | |- context [(?a =? ?b)%Z] => destruct (Z.eqb_spec a b); try lia
  end.

Lemma add_caf_trends_row_table i year df :
  add_caf_trends_row i year df = apply_updates i (rules_for year) df.
Proof.
  unfold add_caf_trends_row, rules_for, spec_era_table, apply_updates.
  cbn [flat_map applies field multiplier]. unfold between, exactly, from.
  split_year; reflexivity.
Qed.

(** ** The whole pass, cell by cell *)

Lemma add_caf_trends_unfold df :
  _add_caf_trends df = foldl trend_step df (iterrows df).
Proof. reflexivity. Qed.

Lemma Annee_foldl_trend_step rows df : Annee (foldl trend_step df rows) = Annee df.
Proof.
  revert df. induction rows as [|[i y] rows IH]; intros df; [done|].
  simpl. rewrite IH, add_caf_trends_row_table. apply Annee_apply_updates.
Qed.

Lemma Annee_add_caf_trends df : Annee (_add_caf_trends df) = Annee df.
Proof. apply Annee_foldl_trend_step. Qed.

Lemma loc_add_caf_trends_row i y df j c :
  loc (add_caf_trends_row i y df) j c =
  if decide (j = i) then scaled (multipliers_for y c) <$> loc df j c
  else loc df j c.
Proof. rewrite add_caf_trends_row_table. apply loc_apply_updates. Qed.

(** Rows [k], [k+1], ... of years [years]: every cell of a visited row is
    scaled by the multipliers of its own year; the other rows are left
    alone. *)
Lemma loc_foldl_trend_step years k df j c :
  loc (foldl trend_step df (imap (λ i year, ((k + i)%nat, year)) years)) j c =
  match (if decide (k ≤ j)%nat then years !! (j - k)%nat else None) with
  | Some y => scaled (multipliers_for y c) <$> loc df j c
  | None => loc df j c
  end.
Proof.
  revert k df. induction years as [|y years IH]; intros k df.
  - simpl. by destruct (decide (k ≤ j)%nat).
  - rewrite imap_cons. simpl foldl.
    rewrite (imap_ext _ (λ i year, ((S k + i)%nat, year))) by (intros; simpl; f_equal; lia).
    rewrite IH, loc_add_caf_trends_row.
    destruct (decide (S k ≤ j)%nat), (decide (j = (k + 0)%nat)),
      (decide (k ≤ j)%nat); try lia.
    + replace (j - k)%nat with (S (j - S k)) by lia. done.
    + subst j. replace (k + 0 - k)%nat with 0%nat by lia. done.
    + done.
Qed.

Lemma loc_add_caf_trends df j c :
  loc (_add_caf_trends df) j c =
  match Annee df !! j with
  | Some y => scaled (multipliers_for y c) <$> loc df j c
  | None => loc df j c
  end.
Proof.
  pose proof (loc_foldl_trend_step (Annee df) 0 df j c) as H.
  rewrite decide_True in H by lia. rewrite Nat.sub_0_r in H. exact H.
Qed.

(** The pass reads a frame only through its cells. *)
Lemma add_caf_trends_ext df1 df2 c :
  Annee df1 = Annee df2 → (∀ c', cols df1 c' = cols df2 c') →
  cols (_add_caf_trends df1) c = cols (_add_caf_trends df2) c.
Proof.
  intros HA HC. apply list_eq. intros i.
  change (loc (_add_caf_trends df1) i c = loc (_add_caf_trends df2) i c).
  rewrite !loc_add_caf_trends, HA. unfold loc. by rewrite HC.
Qed.

Lemma multipliers_for_untargeted y c : untargeted c = true → multipliers_for y c = [].
Proof.
  intros Hc. unfold multipliers_for, rules_for, spec_era_table.
  cbn [flat_map applies field multiplier].
  repeat match goal with
  | |- context [if ?b then [?x] else []] => destruct b
  end; destruct c; try discriminate Hc; reflexivity.
Qed.

Lemma cols_add_caf_trends_untargeted df c :
  untargeted c = true → cols (_add_caf_trends df) c = cols df c.
Proof.
  intros Hc. apply list_eq. intros i.
  change (loc (_add_caf_trends df) i c = loc df i c).
  rewrite loc_add_caf_trends. destruct (Annee df !! i) as [y|]; [|done].
  rewrite multipliers_for_untargeted by done. unfold scaled. simpl.
  by destruct (loc df i c).
Qed.

(** C1. For every year y of 2002..2025 the trend pass multiplies each cell
    of the row of year y by exactly the multipliers that the table of the
    specification lists for that year and field, in table order, and leaves
    every other cell as it was. In particular the 2011-2015 products are
    applied in each of those years although their branch is an [elif], and
    the 2008-2009 and 2020 products come on top of those of the other
    matching branches. *)
Theorem C1_trend_pass_follows_era_table (df : DataFrame) (i : nat) (y : Z) :
  Annee df !! i = Some y → 2002 ≤ y ≤ 2025 →
  (∀ c, loc (_add_caf_trends df) i c = scaled (multipliers_for y c) <$> loc df i c) ∧
  (2011 ≤ y ≤ 2015 →
     loc (_add_caf_trends df) i Contributions_Etat
       = (λ v, v * 1.12)%float <$> loc df i Contributions_Etat ∧
     loc (_add_caf_trends df) i Allocations_Familiales
       = (λ v, v * 1.08)%float <$> loc df i Allocations_Familiales) ∧
  (2008 ≤ y ≤ 2009 →
     loc (_add_caf_trends df) i Cotisations_Sociales
       = (λ v, v * 0.92)%float <$> loc df i Cotisations_Sociales ∧
     loc (_add_caf_trends df) i RSA
       = (λ v, v * 1.25 * 1.15)%float <$> loc df i RSA ∧
     loc (_add_caf_trends df) i Prestations_Solidarite
       = (λ v, v * 1.30)%float <$> loc df i Prestations_Solidarite) ∧
  (y = 2020 →
     loc (_add_caf_trends df) i Cotisations_Sociales
       = (λ v, v * 0.85)%float <$> loc df i Cotisations_Sociales ∧
     loc (_add_caf_trends df) i Contributions_Etat
       = (λ v, v * 1.25)%float <$> loc df i Contributions_Etat ∧
     loc (_add_caf_trends df) i RSA
       = (λ v, v * 1.35)%float <$> loc df i RSA).
Proof.
  intros Hy Hrange.
  assert (∀ c, loc (_add_caf_trends df) i c
               = scaled (multipliers_for y c) <$> loc df i c) as Hcell.
  { intros c. by rewrite loc_add_caf_trends, Hy. }
  split; [exact Hcell|].
  split; [|split]; intros Hy'; rewrite !Hcell.
  - assert (y = 2011 ∨ y = 2012 ∨ y = 2013 ∨ y = 2014 ∨ y = 2015) as Hc by lia.
    destruct_or!; subst y; split; reflexivity.
  - assert (y = 2008 ∨ y = 2009) as Hc by lia.
    destruct_or!; subst y; repeat split; reflexivity.
  - subst y; repeat split; reflexivity.
Qed.

Lemma C1_trend_pass_follows_era_table_witness :
  (Annee four_year_frame !! 1%nat = Some 2008 ∧ 2002 ≤ 2008 ≤ 2025) ∧
  loc (_add_caf_trends four_year_frame) 1 RSA = Some (100 * 1.25 * 1.15)%float ∧
  loc (_add_caf_trends four_year_frame) 1 Recettes_Totales = Some 100%float.
Proof.
  split; [split; [reflexivity | lia]|].
  destruct (C1_trend_pass_follows_era_table four_year_frame 1 2008)
    as (Hcell & _); [reflexivity | lia |].
  split; rewrite Hcell; reflexivity.
Defined.

(** C4 (corrected). The trend pass is not idempotent. For any frame and
    any cell (year, field) holding v, one run leaves v multiplied in turn by
    all the multipliers the table lists for that cell, and a second run
    multiplies the result by the same multipliers again. For a cell matched
    by a single line of multiplier m this is v * m after one run and
    v * m * m after two; solidarity income in 2008 and 2009 is matched by
    two lines (1.25 and 1.15) and takes both each time. Whenever the two
    values differ, running the pass twice gives another frame than running
    it once. *)
Theorem C4_trend_pass_not_idempotent (df : DataFrame) (i : nat) (y : Z)
    (c : Column) (v : float) :
  Annee df !! i = Some y → loc df i c = Some v →
  let ms := multipliers_for y c in
  loc (_add_caf_trends df) i c = Some (scaled ms v) ∧
  loc (_add_caf_trends (_add_caf_trends df)) i c = Some (scaled ms (scaled ms v)) ∧
  (∀ m, ms = [m] →
     loc (_add_caf_trends df) i c = Some (v * m)%float ∧
     loc (_add_caf_trends (_add_caf_trends df)) i c = Some (v * m * m)%float) ∧
  (scaled ms (scaled ms v) ≠ scaled ms v →
     _add_caf_trends (_add_caf_trends df) ≠ _add_caf_trends df).
Proof.
  intros Hy Hv ms.
  assert (loc (_add_caf_trends df) i c = Some (scaled ms v)) as Honce.
  { by rewrite loc_add_caf_trends, Hy, Hv. }
  assert (loc (_add_caf_trends (_add_caf_trends df)) i c
          = Some (scaled ms (scaled ms v))) as Htwice.
  { by rewrite loc_add_caf_trends, Annee_add_caf_trends, Hy, Honce. }
  split; [exact Honce|]. split; [exact Htwice|]. split.
  - intros m Hm. rewrite Honce, Htwice, Hm. done.
  - intros Hne Heq. rewrite Heq, Honce in Htwice. congruence.
Qed.

Lemma C4_trend_pass_not_idempotent_witness :
  (Annee early_frame !! 0%nat = Some 2002 ∧
   loc early_frame 0 Contributions_Etat = Some 100%float) ∧
  loc (_add_caf_trends early_frame) 0 Contributions_Etat
    = Some 110.00000000000001%float ∧
  loc (_add_caf_trends (_add_caf_trends early_frame)) 0 Contributions_Etat
    = Some 121.00000000000003%float ∧
  _add_caf_trends (_add_caf_trends early_frame) ≠ _add_caf_trends early_frame.
Proof.
  destruct (C4_trend_pass_not_idempotent early_frame 0 2002 Contributions_Etat 100
              eq_refl eq_refl) as (Honce & Htwice & _ & Hne).
  split; [split; reflexivity|].
  split; [exact Honce|]. split; [exact Htwice|].
  apply Hne. vm_compute. intros H. discriminate H.
Defined.

(** Counterexample to C4 as written: solidarity income in 2008 is matched
    by the line of multiplier 1.25 and by the line of multiplier 1.15, and
    one run takes 100 to 143.75, which is neither 100 * 1.25 nor
    100 * 1.15. *)
Lemma C4_cell_matched_by_two_lines :
  Annee four_year_frame !! 1%nat = Some 2008 ∧
  loc four_year_frame 1 RSA = Some 100%float ∧
  multipliers_for 2008 RSA = [1.25; 1.15]%float ∧
  loc (_add_caf_trends four_year_frame) 1 RSA = Some 143.75%float ∧
  loc (_add_caf_trends four_year_frame) 1 RSA ≠ Some (100 * 1.25)%float ∧
  loc (_add_caf_trends four_year_frame) 1 RSA ≠ Some (100 * 1.15)%float.
Proof.
  repeat split; try (vm_compute; reflexivity);
    vm_compute; intros H; discriminate H.
Qed.

(** ** Loops that draw once per year *)

Lemma bind_unfold {St A B} (m : Rand St A) (k : A → Rand St B) s :
  bind m k s = k (m s).1 (m s).2.
Proof. unfold bind. by destruct (m s). Qed.

Lemma ret_unfold {St A} (x : A) (s : St) : ret x s = (x, s).
Proof. reflexivity. Qed.

Ltac run_rand :=
  repeat first [rewrite bind_unfold | rewrite ret_unfold]; cbn [fst snd].

Lemma length_draw_n {St} (normal : float → float → Rand St float) loc scale n s :
  length (draw_n normal loc scale n s).1 = n.
Proof.
  revert s. induction n as [|n IH]; intros s; [done|].
  cbn [draw_n]. run_rand. cbn [length]. by rewrite IH.
Qed.

(** A loop whose body draws one noise factor and appends [f i date noise]
    uses one draw per date, in order. *)
Lemma for_enumerate_draws {St} (normal : float → float → Rand St float) loc scale
    (f : nat → Z → float → float) k dates s :
  for_enumerate (λ i date, noise <- normal loc scale ;; ret (f i date noise)) k dates s
  = (imap (λ i p, f (k + i)%nat p.1 p.2)
       (zip dates (draw_n normal loc scale (length dates) s).1),
     (draw_n normal loc scale (length dates) s).2).
Proof.
  revert k s. induction dates as [|d dates IH]; intros k s; [done|].
  cbn [for_enumerate draw_n length]. run_rand. rewrite IH. cbn [fst snd zip zip_with].
  rewrite imap_cons. cbn [fst snd]. rewrite Nat.add_0_r. do 2 f_equal.
  apply imap_ext. intros i [d' x] _. simpl. f_equal. lia.
Qed.

Lemma length_for_enumerate {St A} (body : nat → Z → Rand St A) k dates s :
  length (for_enumerate body k dates s).1 = length dates.
Proof.
  revert k s. induction dates as [|d dates IH]; intros k s; [done|].
  cbn [for_enumerate]. run_rand. cbn [length]. by rewrite IH.
Qed.

Lemma for_enumerate_fixed {St} (normal : float → float → Rand St float) c loc scale
    (f : nat → Z → float → float) k dates s :
  noise_fixed_at c normal →
  (for_enumerate (λ i date, noise <- normal loc scale ;; ret (f i date noise)) k dates s).1
  = imap (λ i date, f (k + i)%nat date c) dates.
Proof.
  intros H. revert k s. induction dates as [|d dates IH]; intros k s; [done|].
  cbn [for_enumerate]. run_rand. rewrite IH, H, imap_cons, Nat.add_0_r. f_equal.
  apply imap_ext. intros i d' _. simpl. f_equal. lia.
Qed.

(** ** The generated frame *)

Lemma generate_financial_data_cols {St} (normal : float → float → Rand St float)
    self s0 c :
  cols (generate_financial_data normal self s0).1 c
  = cols (_add_caf_trends (untrended normal self s0)) c.
Proof.
  unfold generate_financial_data. run_rand.
  apply add_caf_trends_ext; [reflexivity|]. intros c'. by destruct c'.
Qed.

Lemma generate_financial_data_Annee {St} (normal : float → float → Rand St float)
    self s0 :
  Annee (generate_financial_data normal self s0).1
  = date_range (start_year self) (end_year self).
Proof.
  unfold generate_financial_data. run_rand. apply Annee_add_caf_trends.
Qed.

(** ** The default profile *)

Lemma init_default name :
  name ∉ preset_table.*1 → config (__init__ name) = default_bundle.
Proof. intros H. simpl. by apply get_territoire_config_default. Qed.

Lemma by_tier_default {A} name (a b c : A) :
  name ∉ preset_table.*1 → by_tier (__init__ name) a b c = c.
Proof.
  intros H. cbn in H. rewrite !not_elem_of_cons in H. destruct_and!.
  unfold by_tier. simpl.
  rewrite decide_False by (rewrite !elem_of_cons, elem_of_nil; intuition congruence).
  rewrite decide_False by (rewrite !elem_of_cons, elem_of_nil; intuition congruence).
  done.
Qed.

Lemma simulate_allocataires_default name dates :
  name ∉ preset_table.*1 →
  _simulate_allocataires (__init__ name) dates
  = imap (λ i _, 50000 * (1 + 0.012 * float_of_nat i))%float dates.
Proof.
  intros H. unfold _simulate_allocataires.
  rewrite init_default by done. apply imap_ext. intros i d _.
  cbv zeta. by rewrite by_tier_default.
Qed.

(** C3. With the default profile (population 50,000, moderate tier) the
    allocataire series is exactly 50,000 in the first year and exactly
    50,600 in the second: on the two-year range 2002-2003, and in the first
    two rows of the generated frame whatever the noise, since this series
    draws none and the trend pass leaves it alone. *)
Theorem C3_allocataires_default_profile (name : string) :
  name ∉ preset_table.*1 →
  _simulate_allocataires (__init__ name) (date_range 2002 2003)
    = [50000; 50600]%float ∧
  ∀ {RandomState : Type} (normal : float → float → Rand RandomState float) s,
    let df := (generate_financial_data normal (__init__ name) s).1 in
    Annee df !! 0%nat = Some 2002 ∧ loc df 0 Nombre_Allocataires = Some 50000%float ∧
    Annee df !! 1%nat = Some 2003 ∧ loc df 1 Nombre_Allocataires = Some 50600%float.
Proof.
  intros H. split.
  - rewrite simulate_allocataires_default by done. vm_compute. reflexivity.
  - intros RandomState normal s df. subst df. unfold loc.
    rewrite generate_financial_data_Annee, generate_financial_data_cols.
    rewrite cols_add_caf_trends_untargeted by done.
    cbn [untrended cols simulate]. rewrite ret_unfold. cbn [fst].
    rewrite simulate_allocataires_default by done.
    repeat split; vm_compute; reflexivity.
Qed.

Lemma C3_allocataires_default_profile_witness :
("Clipperton" ∉ preset_table.*1) ∧
  _simulate_allocataires (__init__ "Clipperton") (date_range 2002 2003)
    = [50000; 50600]%float.
Proof.
  assert ("Clipperton" ∉ preset_table.*1) as H.
  { cbn. rewrite !not_elem_of_cons. repeat split; try discriminate. apply not_elem_of_nil. }
  split; [exact H|].
  apply (C3_allocataires_default_profile "Clipperton" H).
Defined.

(** ** Year-gated factors *)

Lemma for_enumerate_series {St} (normal : float → float → Rand St float) loc scale
    (f : nat → Z → float → float) dates s :
  (for_enumerate (λ i date, noise <- normal loc scale ;; ret (f i date noise)) 0 dates s).1
  = series f dates (draw_n normal loc scale (length dates) s).1.
Proof. rewrite for_enumerate_draws. reflexivity. Qed.

Lemma by_tier_tier_of {A} self (a b c : A) :
  by_tier self a b c = match tier_of self with very_high => a | high => b | moderate => c end.
Proof. unfold tier_of, by_tier. by repeat case_decide. Qed.

(** C5 (corrected). Each of the four year-gated series multiplies its base
    by a factor that is 1 for every year before 2010 and linear in
    (year - 2010) from 2010 on. Only the state contributions take their
    rate from the territory's tier (0.022, 0.018, 0.015); the coverage rate
    (0.005) and the account balance (0.01) use one rate for every
    territory, and the management ratio decreases: 1 - 0.003 * (year - 2010). *)
Theorem C5_year_gated_factors (self : Analyzer) (year : Z) :
  (year < 2010 → ∀ f, gated_factor f self year = 1%float) ∧
  (2010 ≤ year →
     gated_factor Gated_State self year
       = (1 + state_rate (tier_of self) * float_of_int (year - 2010))%float ∧
     gated_factor Gated_Coverage self year
       = (1 + 0.005 * float_of_int (year - 2010))%float ∧
     gated_factor Gated_Management self year
       = (1 - 0.003 * float_of_int (year - 2010))%float ∧
     gated_factor Gated_Balance self year
       = (1 + 0.01 * float_of_int (year - 2010))%float) ∧
  (∀ {RandomState : Type} (normal : float → float → Rand RandomState float) dates s,
     (_simulate_state_contributions normal self dates s).1
       = series (λ i date noise,
           float_of_int (budget_base (config self)) * 0.30
           * gated_factor Gated_State self date * noise)%float
           dates (draw_n normal 1 0.05 (length dates) s).1 ∧
     (_simulate_coverage_rate normal self dates s).1
       = series (λ i date noise,
           by_tier self 0.85 0.88 0.92
           * gated_factor Gated_Coverage self date * noise)%float
           dates (draw_n normal 1 0.03 (length dates) s).1 ∧
     (_simulate_management_ratio normal self dates s).1
       = series (λ i date noise,
           (if decide (territoire self ∈ ["Saint-Pierre-et-Miquelon"; "Wallis-et-Futuna"])
            then 0.075
            else if decide (territoire self ∈ ["Mayotte"; "Guyane"]) then 0.065
            else 0.055)
           * gated_factor Gated_Management self date * noise)%float
           dates (draw_n normal 1 0.02 (length dates) s).1 ∧
     (_simulate_account_balance normal self dates s).1
       = series (λ i date noise,
           float_of_int (budget_base (config self)) * 0.03
           * gated_factor Gated_Balance self date * noise)%float
           dates (draw_n normal 1 0.15 (length dates) s).1).
Proof.
  split; [|split].
  - intros Hlt f.
    assert ((year >=? 2010) = false) as E by lia.
    destruct f; simpl;
      unfold state_increase, coverage_improvement, management_improvement,
        balance_improvement; by rewrite E.
  - intros Hge.
    assert ((year >=? 2010) = true) as E by lia.
    simpl. unfold state_increase, coverage_improvement, management_improvement,
      balance_improvement. rewrite E, by_tier_tier_of.
    repeat split. by destruct (tier_of self).
  - intros RandomState normal dates s.
    repeat split; apply for_enumerate_series.
Qed.

Lemma C5_year_gated_factors_witness :
  (2005 < 2010 ∧ 2010 ≤ 2020) ∧
  gated_factor Gated_State (__init__ "Guyane") 2005 = 1%float ∧
  gated_factor Gated_State (__init__ "Guyane") 2020 = 1.22%float ∧
  gated_factor Gated_Management (__init__ "Guyane") 2020 = 0.97%float.
Proof.
  split; [lia|].
  destruct (C5_year_gated_factors (__init__ "Guyane") 2005) as (Hbefore & _ & _).
  destruct (C5_year_gated_factors (__init__ "Guyane") 2020) as (_ & Hafter & _).
  destruct (Hafter ltac:(lia)) as (Hs & _ & Hm & _).
  split; [apply Hbefore; lia|].
  split; [rewrite Hs | rewrite Hm]; vm_compute; reflexivity.
Defined.

(** Counterexample to C5 as written: the factor of the coverage rate, of the management
    ratio and of the account balance is the same for territories of
    different tiers, so its rate is not the tier's; and the factor of the
    management ratio falls below 1 after 2010 instead of growing. *)
Lemma C5_rate_not_tier_specific :
  tier_of (__init__ "Mayotte") = very_high ∧
  tier_of (__init__ "La Réunion") = high ∧
  tier_of (__init__ "Guadeloupe") = moderate ∧
  (∀ f, f ≠ Gated_State →
     gated_factor f (__init__ "Mayotte") 2020 = gated_factor f (__init__ "La Réunion") 2020 ∧
     gated_factor f (__init__ "Mayotte") 2020 = gated_factor f (__init__ "Guadeloupe") 2020) ∧
  gated_factor Gated_Coverage (__init__ "Mayotte") 2020 = 1.05%float ∧
  gated_factor Gated_Balance (__init__ "Mayotte") 2020 = 1.1%float ∧
  gated_factor Gated_Management (__init__ "Mayotte") 2020 = 0.97%float ∧
  (gated_factor Gated_Management (__init__ "Mayotte") 2020 <? 1)%float = true.
Proof.
  repeat split; try (vm_compute; reflexivity); by destruct f.
Qed.

(** ** Tag multipliers *)

Lemma has_tag_true self tag :
  tag ∈ specificites (config self) → has_tag self tag = true.
Proof. intros H. unfold has_tag. by apply bool_decide_eq_true_2. Qed.

Lemma has_tag_false self tag :
  tag ∉ specificites (config self) → has_tag self tag = false.
Proof. intros H. unfold has_tag. by apply bool_decide_eq_false_2. Qed.

(** C6. For every profile, the multiplier a series applies is the fixed
    boost exactly when the tag is literally among the profile's tags and
    1.0 otherwise: 1.4 on family benefits and family allowance for
    familles_nombreuses, 1.5 on solidarity benefits and 1.6 on RSA for
    precarite, 1.3 on the back-to-school grant and 1.5 on the birth grant
    for jeunesse; and each value of these series is
    base * growth * multiplier * noise. A tag that merely contains the
    word, such as Mayotte's precarite_elevee, gives no boost. *)
Theorem C6_tag_multipliers (self : Analyzer) :
  (boost_if_tagged self "familles_nombreuses" 1.4 (family_benefits_multiplier self) ∧
   boost_if_tagged self "familles_nombreuses" 1.4 (family_allocations_multiplier self) ∧
   boost_if_tagged self "precarite" 1.5 (solidarity_benefits_multiplier self) ∧
   boost_if_tagged self "precarite" 1.6 (rsa_multiplier self) ∧
   boost_if_tagged self "jeunesse" 1.3 (ars_multiplier self) ∧
   boost_if_tagged self "jeunesse" 1.5 (birth_grant_multiplier self)) ∧
  (∀ {RandomState : Type} (normal : float → float → Rand RandomState float) dates s,
     let fi := float_of_nat in
     let budget := float_of_int (budget_base (config self)) in
     (_simulate_family_benefits normal self dates s).1
       = series (λ i date noise,
           budget * 0.45
           * by_tier self (1 + 0.032 * fi i) (1 + 0.028 * fi i) (1 + 0.022 * fi i)
           * family_benefits_multiplier self * noise)%float
           dates (draw_n normal 1 0.06 (length dates) s).1 ∧
     (_simulate_family_allocations normal self dates s).1
       = series (λ i date noise,
           budget * 0.25
           * by_tier self (1 + 0.03 * fi i) (1 + 0.025 * fi i) (1 + 0.02 * fi i)
           * family_allocations_multiplier self * noise)%float
           dates (draw_n normal 1 0.06 (length dates) s).1 ∧
     (_simulate_solidarity_benefits normal self dates s).1
       = series (λ i date noise,
           budget * 0.20
           * by_tier self (1 + 0.04 * fi i) (1 + 0.035 * fi i) (1 + 0.028 * fi i)
           * solidarity_benefits_multiplier self * noise)%float
           dates (draw_n normal 1 0.09 (length dates) s).1 ∧
     (_simulate_rsa normal self dates s).1
       = series (λ i date noise,
           budget * 0.15
           * by_tier self (1 + 0.042 * fi i) (1 + 0.038 * fi i) (1 + 0.03 * fi i)
           * rsa_multiplier self * noise)%float
           dates (draw_n normal 1 0.09 (length dates) s).1 ∧
     (_simulate_ars normal self dates s).1
       = series (λ i date noise,
           budget * 0.08
           * by_tier self (1 + 0.032 * fi i) (1 + 0.028 * fi i) (1 + 0.022 * fi i)
           * ars_multiplier self * noise)%float
           dates (draw_n normal 1 0.07 (length dates) s).1 ∧
     (_simulate_birth_grant normal self dates s).1
       = series (λ i date noise,
           budget * 0.04
           * by_tier self (1 + 0.026 * fi i) (1 + 0.022 * fi i) (1 + 0.018 * fi i)
           * birth_grant_multiplier self * noise)%float
           dates (draw_n normal 1 0.10 (length dates) s).1) ∧
  (rsa_multiplier (__init__ "Guadeloupe") = 1.6%float ∧
   rsa_multiplier (__init__ "Mayotte") = 1.0%float ∧
   family_benefits_multiplier (__init__ "Mayotte") = 1.4%float ∧
   birth_grant_multiplier (__init__ "Martinique") = 1.0%float).
Proof.
  split; [|split].
  - unfold boost_if_tagged, family_benefits_multiplier, family_allocations_multiplier,
      solidarity_benefits_multiplier, rsa_multiplier, ars_multiplier,
      birth_grant_multiplier.
    repeat split; intros H;
      first [by rewrite (has_tag_true _ _ H) | by rewrite (has_tag_false _ _ H)].
  - intros RandomState normal dates s fi budget.
    repeat split; apply for_enumerate_series.
  - repeat split; vm_compute; reflexivity.
Qed.

(** ** Runs without noise *)

(** With the draws fixed, a series does not depend on the generator or on
    its state. *)
Lemma simulate_fixed {St1 St2} (normal1 : float → float → Rand St1 float)
    (normal2 : float → float → Rand St2 float) c0 self c s1 s2 :
  noise_fixed_at c0 normal1 → noise_fixed_at c0 normal2 →
  (simulate normal1 self c s1).1 = (simulate normal2 self c s2).1.
Proof.
  intros H1 H2.
  destruct c; cbn [simulate]; [reflexivity|..];
    unfold _simulate_prestations, _simulate_total_revenue,
      _simulate_social_contributions, _simulate_state_contributions,
      _simulate_other_revenue, _simulate_total_expenses, _simulate_family_benefits,
      _simulate_housing_benefits, _simulate_solidarity_benefits,
      _simulate_management_costs, _simulate_coverage_rate, _simulate_management_ratio,
      _simulate_account_balance, _simulate_family_allocations, _simulate_ars,
      _simulate_apl, _simulate_rsa, _simulate_birth_grant; cbv zeta;
    rewrite (for_enumerate_fixed normal1 c0) by assumption;
    rewrite (for_enumerate_fixed normal2 c0) by assumption;
    reflexivity.
Qed.

(** C7. With the noise factor fixed at 1.0, two runs of the generator for
    the same analyzer (territory and year range) give the same series,
    value for value, in every column and every year, whatever the state of
    the random generator at the start of each run. *)
Theorem C7_deterministic_without_noise {St1 St2 : Type}
    (normal1 : float → float → Rand St1 float)
    (normal2 : float → float → Rand St2 float)
    (self : Analyzer) (s1 : St1) (s2 : St2) :
  noise_fixed_at 1 normal1 → noise_fixed_at 1 normal2 →
  let df1 := (generate_financial_data normal1 self s1).1 in
  let df2 := (generate_financial_data normal2 self s2).1 in
  Annee df1 = Annee df2 ∧ ∀ c, cols df1 c = cols df2 c.
Proof.
  intros H1 H2 df1 df2. subst df1 df2. split.
  - by rewrite !generate_financial_data_Annee.
  - intros c. rewrite !generate_financial_data_cols.
    apply add_caf_trends_ext; [reflexivity|].
    intros c'. cbn [untrended cols]. by apply (simulate_fixed _ _ 1).
Qed.

Lemma C7_deterministic_without_noise_witness :
  (noise_fixed_at 1 (fixed_noise 1) ∧ noise_fixed_at 1 (fixed_noise 1)) ∧
  cols (generate_financial_data (fixed_noise 1) (__init__ "La Réunion") 0%nat).1 RSA
  = cols (generate_financial_data (fixed_noise 1) (__init__ "La Réunion") 7%nat).1 RSA.
Proof.
  split; [split; intros loc scale s; reflexivity|].
  apply (C7_deterministic_without_noise (fixed_noise 1) (fixed_noise 1)
           (__init__ "La Réunion") 0%nat 7%nat);
    intros loc scale s; reflexivity.
Defined.

(** ** Calls and errors *)

Lemma length_cols_loc_imul i c m df c' :
  length (cols (loc_imul i c m df) c') = length (cols df c').
Proof.
  unfold loc_imul. simpl. case_decide; [|done]. apply length_alter.
Qed.

Lemma length_cols_add_caf_trends df c :
  length (cols (_add_caf_trends df) c) = length (cols df c).
Proof.
  rewrite add_caf_trends_unfold. generalize (iterrows df). intros rows.
  revert df. induction rows as [|[i y] rows IH]; intros df; [done|].
  cbn [foldl]. rewrite IH. cbn [trend_step].
  rewrite add_caf_trends_row_table. generalize (rules_for y). intros ups.
  revert df. induction ups as [|u ups IHu]; intros df; [done|].
  unfold apply_updates in *. cbn [foldl]. rewrite IHu. apply length_cols_loc_imul.
Qed.

Lemma length_cols_untrended {St} (normal : float → float → Rand St float) self s c :
  length (cols (untrended normal self s) c)
  = length (date_range (start_year self) (end_year self)).
Proof.
  cbn [untrended cols].
  destruct c; cbn [simulate];
    [rewrite ret_unfold; apply length_imap | apply length_for_enumerate ..].
Qed.

Lemma length_date_range start stop :
  length (date_range start stop) = Z.to_nat (stop - start + 1).
Proof. apply length_seqZ. Qed.

Lemma pow_53_lt_pow_1024 : 2 ^ 53 < 2 ^ 1024.
Proof. vm_compute. reflexivity. Qed.

Lemma exact_baselines_no_overflow self : exact_baselines self → ¬ baseline_overflows self.
Proof.
  unfold exact_baselines, baseline_overflows, converts_exactly, too_large_for_float.
  pose proof pow_53_lt_pow_1024 as Hpow. revert Hpow.
  generalize (2 ^ 53) (2 ^ 1024). intros small large Hpow. lia.
Qed.

Lemma representable_not_out_of_bounds self :
  representable_years self → ¬ date_out_of_bounds self.
Proof. unfold representable_years, date_out_of_bounds, four_digit. lia. Qed.

(** C8 (corrected). The generator checks neither the order of the years
    nor the sign of the baselines. For years pandas can represent
    (1678..2261) and baselines a float holds exactly, in any order and of
    any sign, a call returns a frame with one row per year of the range and
    as many values in every column; the frame is empty when the end year is
    before the start year. A call never raises InvalidRangeError or
    InvalidProfileError: the errors it can end in are the libraries' own,
    OutOfBoundsDatetime when a date is outside pandas' timestamp range (as
    for 2260..2262) and OverflowError when a baseline is too large for a
    float (as for a budget of 10^400). *)
Theorem C8_generator_never_raises {RandomState : Type}
    (normal : float → float → Rand RandomState float) (self : Analyzer)
    (s : RandomState) :
  (representable_years self → exact_baselines self →
   ∃ df s',
     call_generate_financial_data normal self s = Some (Return (df, s')) ∧
     Annee df = seqZ (start_year self) (end_year self - start_year self + 1) ∧
     (∀ c, length (cols df c) = Z.to_nat (end_year self - start_year self + 1)) ∧
     (end_year self < start_year self → Annee df = [] ∧ ∀ c, cols df c = [])) ∧
  (∀ e, call_generate_financial_data normal self s = Some (Raise e) →
        (e = OutOfBoundsDatetime ∧ date_out_of_bounds self) ∨
        (e = OverflowError ∧ baseline_overflows self)) ∧
  (date_out_of_bounds self →
     call_generate_financial_data normal self s = Some (Raise OutOfBoundsDatetime)) ∧
  (representable_years self → baseline_overflows self →
     call_generate_financial_data normal self s = Some (Raise OverflowError)) ∧
  call_generate_financial_data normal late_range s = Some (Raise OutOfBoundsDatetime) ∧
  call_generate_financial_data normal huge_budget s = Some (Raise OverflowError).
Proof.
  split; [|split; [|split; [|split; [|split]]]].
  - intros Hyears Hexact.
    exists (generate_financial_data normal self s).1,
           (generate_financial_data normal self s).2.
    assert (∀ c, length (cols (generate_financial_data normal self s).1 c)
                 = Z.to_nat (end_year self - start_year self + 1)) as Hlen.
    { intros c. rewrite generate_financial_data_cols, length_cols_add_caf_trends,
        length_cols_untrended. apply length_date_range. }
    split; [|split; [|split]].
    + unfold call_generate_financial_data.
      rewrite decide_False by by apply representable_not_out_of_bounds.
      rewrite decide_True by done.
      rewrite decide_False by by apply exact_baselines_no_overflow.
      rewrite decide_True by done.
      by destruct (generate_financial_data normal self s).
    + apply generate_financial_data_Annee.
    + exact Hlen.
    + intros Hrev. split.
      * rewrite generate_financial_data_Annee. unfold date_range.
        apply length_zero_iff_nil. rewrite length_seqZ. lia.
      * intros c. apply length_zero_iff_nil. rewrite Hlen. lia.
  - intros e. unfold call_generate_financial_data.
    repeat case_decide; intros He; try discriminate He;
      injection He as <-; [left | right]; by split.
  - intros Hout. unfold call_generate_financial_data. by rewrite decide_True.
  - intros Hyears Hover. unfold call_generate_financial_data.
    rewrite decide_False by by apply representable_not_out_of_bounds.
    by rewrite !decide_True.
  - unfold call_generate_financial_data. rewrite decide_True; [done|].
    unfold date_out_of_bounds, four_digit, late_range. simpl. lia.
  - unfold call_generate_financial_data.
    rewrite decide_False; [|unfold date_out_of_bounds, huge_budget; simpl; lia].
    rewrite decide_True; [|unfold representable_years, huge_budget; simpl; lia].
    rewrite decide_True; [done|].
    left. unfold too_large_for_float, huge_budget. simpl budget_base.
    apply Z.leb_le. vm_compute. reflexivity.
Qed.

Lemma C8_generator_never_raises_witness :
  (representable_years reversed_range ∧ exact_baselines reversed_range) ∧
  ∃ df s', call_generate_financial_data (fixed_noise 1) reversed_range 0%nat
             = Some (Return (df, s')) ∧ Annee df = [] ∧ ∀ c, cols df c = [].
Proof.
  assert (representable_years reversed_range) as Hr.
  { unfold representable_years, reversed_range. simpl. lia. }
  assert (exact_baselines reversed_range) as Hb.
  { unfold exact_baselines, converts_exactly. split; apply Z.ltb_lt; vm_compute;
      reflexivity. }
  split; [by split|].
  destruct (C8_generator_never_raises (fixed_noise 1) reversed_range 0%nat)
    as (Hreturn & _).
  destruct (Hreturn Hr Hb) as (df & s' & Hcall & _ & _ & Hempty).
  exists df, s'. split; [exact Hcall|].
  apply Hempty. unfold reversed_range. simpl. lia.
Defined.

(** Counterexample to C8 as written: a reversed year range and a non-positive baseline
    are both accepted. The first gives the empty frame, the second a frame
    computed from the negative baseline. *)
Lemma C8_malformed_input_accepted :
  (∃ df s', call_generate_financial_data (fixed_noise 1) reversed_range 0%nat
              = Some (Return (df, s')) ∧ Annee df = [] ∧
            cols df Nombre_Allocataires = [] ∧ cols df Recettes_Totales = []) ∧
  call_generate_financial_data (fixed_noise 1) reversed_range 0%nat
    ≠ Some (Raise InvalidRangeError) ∧
  (∃ df s', call_generate_financial_data (fixed_noise 1) non_positive_profile 0%nat
              = Some (Return (df, s')) ∧ Annee df = [2002; 2003] ∧
            cols df Nombre_Allocataires = [-5; -5.125]%float ∧
            cols df Recettes_Totales = [0; 0]%float) ∧
  call_generate_financial_data (fixed_noise 1) non_positive_profile 0%nat
    ≠ Some (Raise InvalidProfileError).
Proof.
  split; [|split; [|split]].
  - eexists _, _. split; [vm_compute; reflexivity|].
    repeat split; vm_compute; reflexivity.
  - vm_compute. discriminate.
  - eexists _, _. split; [vm_compute; reflexivity|].
    repeat split; vm_compute; reflexivity.
  - vm_compute. discriminate.
Qed.

(** ** Growth figures *)

(** C9 (corrected). The growth percentage of a column is
    (last / first - 1) * 100, computed in binary64; this is the figure
    reported for the total revenue and for the number of allocataires. For
    the two-year total revenue 100 then 110 it is 10.000000000000009:
    within 1e-14 of 10, but not the float 10.0, because 110 / 100 is not
    exactly 1.1. *)
Theorem C9_growth_percentage (df : DataFrame) (c : Column) (first last : float) :
  iloc_first (cols df c) = Some first →
  iloc_last (cols df c) = Some last →
  growth_percentage (cols df c) = Some ((last / first - 1) * 100)%float ∧
  revenue_growth df = growth_percentage (cols df Recettes_Totales) ∧
  allocataires_growth df = growth_percentage (cols df Nombre_Allocataires) ∧
  revenue_growth two_year_frame = Some 10.000000000000009%float ∧
  (PrimFloat.abs (10.000000000000009 - 10) <? 1e-14)%float = true.
Proof.
  intros Hf Hl. split.
  - unfold growth_percentage. by rewrite Hf, Hl.
  - repeat split; vm_compute; reflexivity.
Qed.

Lemma C9_growth_percentage_witness :
  (iloc_first (cols two_year_frame Recettes_Totales) = Some 100%float ∧
   iloc_last (cols two_year_frame Recettes_Totales) = Some 110%float) ∧
  revenue_growth two_year_frame = Some ((110 / 100 - 1) * 100)%float.
Proof.
  split; [split; reflexivity|].
  apply (C9_growth_percentage two_year_frame Recettes_Totales 100 110 eq_refl eq_refl).
Defined.

(** Counterexample to C9 as written: for the total revenue 100 then 110
    the growth percentage is not exactly 10.0. *)
Lemma C9_growth_not_exactly_ten :
  cols two_year_frame Recettes_Totales = [100; 110]%float ∧
  revenue_growth two_year_frame ≠ Some 10%float.
Proof.
  split; [reflexivity|]. vm_compute. intros H. discriminate H.
Qed.

(** ** Total revenue and its components *)

(** C10. The total revenue of every year is the baseline budget times the
    linear growth of the territory's tier times the year's own draw (the
    draws that follow those of the benefits-paid series), and neither the
    generator nor the trend pass adjusts it to the component series.
    There are draws for which the total differs from the sum of social
    contributions, state contributions and other revenue: with every draw
    equal to 1.0 and the default profile, the total for 2002 is 200 and the
    components add up to 206; for 2006 they are 222.4 and 212.44. *)
Theorem C10_total_revenue_not_reconciled :
  (∀ {RandomState : Type} (normal : float → float → Rand RandomState float) self s,
     let dates := date_range (start_year self) (end_year self) in
     cols (generate_financial_data normal self s).1 Recettes_Totales
     = series (λ i date noise,
         float_of_int (budget_base (config self))
         * (1 + by_tier self 0.042 0.035 0.028 * float_of_nat i) * noise)%float
         dates
         (draw_n normal 1 0.08 (length dates)
            (_simulate_prestations normal self dates s).2).1) ∧
  (let df := (generate_financial_data (fixed_noise 1) (__init__ "Autre") 0%nat).1 in
   loc df 0 Recettes_Totales = Some 200%float ∧
   loc df 0 Cotisations_Sociales = Some 130%float ∧
   loc df 0 Contributions_Etat = Some 66%float ∧
   loc df 0 Autres_Recettes = Some 10%float ∧
   (130 + 66 + 10)%float = 206%float ∧
   loc df 4 Recettes_Totales = Some 222.40000000000003%float ∧
   loc df 4 Cotisations_Sociales = Some 141.44%float ∧
   loc df 4 Contributions_Etat = Some 60%float ∧
   loc df 4 Autres_Recettes = Some 11%float ∧
   (141.44 + 60 + 11)%float = 212.44%float) ∧
  (∃ (normal : float → float → Rand nat float) self s i rt cs ce ar,
     let df := (generate_financial_data normal self s).1 in
     loc df i Recettes_Totales = Some rt ∧
     loc df i Cotisations_Sociales = Some cs ∧
     loc df i Contributions_Etat = Some ce ∧
     loc df i Autres_Recettes = Some ar ∧
     rt ≠ (cs + ce + ar)%float).
Proof.
  split; [|split].
  - intros RandomState normal self s dates.
    rewrite generate_financial_data_cols.
    rewrite cols_add_caf_trends_untargeted by reflexivity.
    cbn [untrended cols simulate state_before]. apply for_enumerate_series.
  - repeat split; vm_compute; reflexivity.
  - exists (fixed_noise 1), (__init__ "Autre"), 0%nat, 0%nat.
    exists 200%float, 130%float, 66%float, 10%float.
    repeat split; try (vm_compute; reflexivity).
    vm_compute. intros H. discriminate H.
Qed.


(** * Further properties *)

(** ** Profiles the resolver can return *)

Lemma get_territoire_config_cases name :
  _get_territoire_config name = default_bundle ∨
  (name, _get_territoire_config name) ∈ preset_table.
Proof.
  destruct (decide (name ∈ preset_table.*1)) as [Hin|Hout].
  - right. apply list_elem_of_fmap in Hin as ([n cfg] & -> & Hin).
    cbn [fst]. unfold _get_territoire_config.
    by rewrite (configs_lookup_preset _ _ Hin).
  - left. by apply get_territoire_config_default.
Qed.

(** X1. Whatever string it is given, the resolver returns a profile with a
    strictly positive population, a strictly positive budget and exactly
    three tags. *)
Theorem X1_resolved_profile_well_formed (name : string) :
  0 < allocataires_base (_get_territoire_config name) ∧
  0 < budget_base (_get_territoire_config name) ∧
  length (specificites (_get_territoire_config name)) = 3%nat.
Proof.
  destruct (get_territoire_config_cases name) as [->|Hin].
  - repeat split; reflexivity.
  - revert Hin. generalize (_get_territoire_config name). intros cfg.
    unfold preset_table. rewrite !elem_of_cons, elem_of_nil.
    intros H. repeat destruct H as [H|H]; try contradiction;
      injection H as _ ->; repeat split; reflexivity.
Qed.

(** ** The choice made in [main] *)

Lemma select_territoire_in_range k :
  1 ≤ k ≤ 11 → territoires !! Z.to_nat (k - 1) = Some (select_territoire (Some k)).
Proof.
  intros Hk.
  assert (k = 1 ∨ k = 2 ∨ k = 3 ∨ k = 4 ∨ k = 5 ∨ k = 6 ∨ k = 7 ∨ k = 8 ∨
          k = 9 ∨ k = 10 ∨ k = 11) as Hc by lia.
  destruct_or!; subst k; reflexivity.
Qed.

Lemma select_territoire_out_of_range k :
  k < 1 ∨ 11 < k → select_territoire (Some k) = "La Réunion".
Proof.
  intros Hk. unfold select_territoire.
  assert ((k <? 1) || (k >? Z.of_nat (length territoires)) = true) as ->; [|done].
  change (Z.of_nat (length territoires)) with 11. apply orb_true_iff. lia.
Qed.

Lemma select_territoire_elem parsed : select_territoire parsed ∈ territoires.
Proof.
  assert ("La Réunion" ∈ territoires) as HR.
  { apply list_elem_of_lookup. by exists 3%nat. }
  destruct parsed as [k|]; [|exact HR].
  destruct (decide (1 ≤ k ≤ 11)) as [Hk|Hk].
  - apply list_elem_of_lookup. eexists. by apply select_territoire_in_range.
  - rewrite select_territoire_out_of_range by lia. exact HR.
Qed.

(** X2. A choice k between 1 and 11 selects the k-th territory of the
    list (counting from 1). Any other input, a number outside that range or
    text that is not a number, selects La Réunion. *)
Theorem X2_select_territoire (parsed : option Z) :
  (∀ k, parsed = Some k → 1 ≤ k ≤ 11 →
     territoires !! Z.to_nat (k - 1) = Some (select_territoire parsed)) ∧
  (∀ k, parsed = Some k → k < 1 ∨ 11 < k → select_territoire parsed = "La Réunion") ∧
  (parsed = None → select_territoire parsed = "La Réunion").
Proof.
  split; [|split].
  - intros k -> Hk. by apply select_territoire_in_range.
  - intros k -> Hk. by apply select_territoire_out_of_range.
  - intros ->. reflexivity.
Qed.

(** X3. Whatever is typed at the prompt, [main] analyzes one of the eleven
    listed territories with that territory's own preset: the default
    bundle is never the profile of a run started from [main]. *)
Theorem X3_main_never_uses_default (parsed : option Z) :
  select_territoire parsed ∈ territoires ∧
  (select_territoire parsed, config (main_analyzer parsed)) ∈ preset_table ∧
  config (main_analyzer parsed) ≠ default_bundle ∧
  start_year (main_analyzer parsed) = 2002 ∧ end_year (main_analyzer parsed) = 2025.
Proof.
  pose proof (select_territoire_elem parsed) as Hin.
  split; [exact Hin|].
  revert Hin. unfold main_analyzer. generalize (select_territoire parsed).
  intros name. unfold territoires. rewrite !elem_of_cons, elem_of_nil.
  intros H. repeat destruct H as [H|H]; try contradiction; subst name;
    (split; [vm_compute; set_solver|]); (split; [|done]); vm_compute; discriminate.
Qed.

(** ** What the trend pass keeps *)

(** X4. The trend pass keeps the shape of any frame: the year column is
    unchanged, every column keeps its length, and a cell exists after the
    pass exactly when it existed before. *)
Theorem X4_trend_pass_keeps_shape (df : DataFrame) :
  Annee (_add_caf_trends df) = Annee df ∧
  (∀ c, length (cols (_add_caf_trends df) c) = length (cols df c)) ∧
  (∀ i c, is_Some (loc (_add_caf_trends df) i c) ↔ is_Some (loc df i c)).
Proof.
  split; [apply Annee_add_caf_trends|]. split; [apply length_cols_add_caf_trends|].
  intros i c. unfold loc. rewrite !lookup_lt_is_Some.
  by rewrite length_cols_add_caf_trends.
Qed.

(** X5. The trend pass never changes eleven of the nineteen columns,
    whatever the frame and its years: allocataires, benefits paid, total
    revenue, other revenue, total expenses, management costs, coverage
    rate, management ratio, account balance, APL and birth grant. *)
Theorem X5_trend_pass_untouched_columns (df : DataFrame) (c : Column) :
  c ∈ [Nombre_Allocataires; Prestations_Versees; Recettes_Totales; Autres_Recettes;
       Depenses_Totales; Frais_Gestion; Taux_Couverture; Ratio_Gestion;
       Solde_Compte; APL; Prime_Naissance] →
  cols (_add_caf_trends df) c = cols df c.
Proof.
  rewrite !elem_of_cons, elem_of_nil. intros H.
  apply cols_add_caf_trends_untargeted.
  repeat destruct H as [H|H]; try contradiction; by subst c.
Qed.

Lemma X5_trend_pass_untouched_columns_witness :
  (APL ∈ [Nombre_Allocataires; Prestations_Versees; Recettes_Totales; Autres_Recettes;
          Depenses_Totales; Frais_Gestion; Taux_Couverture; Ratio_Gestion;
          Solde_Compte; APL; Prime_Naissance]) ∧
  cols (_add_caf_trends four_year_frame) APL = [100; 100; 100; 100]%float.
Proof.
  assert (APL ∈ [Nombre_Allocataires; Prestations_Versees; Recettes_Totales;
                 Autres_Recettes; Depenses_Totales; Frais_Gestion; Taux_Couverture;
                 Ratio_Gestion; Solde_Compte; APL; Prime_Naissance]) as H.
  { apply list_elem_of_lookup. by exists 9%nat. }
  split; [exact H|].
  rewrite (X5_trend_pass_untouched_columns four_year_frame APL H). reflexivity.
Defined.

Lemma rules_for_quiet_year y :
  y < 2002 ∨ y = 2016 ∨ y = 2018 ∨ y = 2019 ∨ y = 2021 → rules_for y = [].
Proof.
  intros Hy. unfold rules_for, spec_era_table.
  cbn [flat_map applies field multiplier]. unfold between, exactly, from.
  split_year; reflexivity.
Qed.

Lemma rules_for_from_2022 y :
  2022 ≤ y →
  rules_for y = [(Contributions_Etat, 1.08); (Prestations_Logement, 1.12);
                 (ARS, 1.10)]%float.
Proof.
  intros Hy. unfold rules_for, spec_era_table.
  cbn [flat_map applies field multiplier]. unfold between, exactly, from.
  split_year; reflexivity.
Qed.

(** X6. A row whose year is 2016, 2018, 2019 or 2021, or any year before
    2002, goes through the trend pass unchanged in every column. In
    particular nothing is adjusted in 2021, although the branch that
    handles 2020 tests for the years 2020 to 2021. *)
Theorem X6_trend_pass_quiet_years (df : DataFrame) (i : nat) (y : Z) (c : Column) :
  Annee df !! i = Some y →
  y < 2002 ∨ y = 2016 ∨ y = 2018 ∨ y = 2019 ∨ y = 2021 →
  loc (_add_caf_trends df) i c = loc df i c.
Proof.
  intros Hi Hy. rewrite loc_add_caf_trends, Hi.
  unfold multipliers_for. rewrite rules_for_quiet_year by done.
  unfold scaled, targeting. simpl. by destruct (loc df i c).
Qed.

Lemma X6_trend_pass_quiet_years_witness :
  (Annee (constant_frame [2020; 2021] 100) !! 1%nat = Some 2021 ∧
   (2021 < 2002 ∨ 2021 = 2016 ∨ 2021 = 2018 ∨ 2021 = 2019 ∨ 2021 = 2021)) ∧
  loc (_add_caf_trends (constant_frame [2020; 2021] 100)) 1 RSA = Some 100%float ∧
  loc (_add_caf_trends (constant_frame [2020; 2021] 100)) 0 RSA = Some 135%float.
Proof.
  split; [split; [reflexivity | lia]|].
  split; [|vm_compute; reflexivity].
  rewrite (X6_trend_pass_quiet_years (constant_frame [2020; 2021] 100) 1 2021 RSA);
    [reflexivity | reflexivity | lia].
Defined.

(** X7. The last adjustment has no upper bound: for every year from 2022
    on, also after 2025, the pass multiplies state contributions by 1.08,
    housing benefits by 1.12 and the back-to-school grant by 1.10, and
    changes no other column. *)
Theorem X7_trend_pass_from_2022 (df : DataFrame) (i : nat) (y : Z) :
  Annee df !! i = Some y → 2022 ≤ y →
  loc (_add_caf_trends df) i Contributions_Etat
    = (λ v, v * 1.08)%float <$> loc df i Contributions_Etat ∧
  loc (_add_caf_trends df) i Prestations_Logement
    = (λ v, v * 1.12)%float <$> loc df i Prestations_Logement ∧
  loc (_add_caf_trends df) i ARS = (λ v, v * 1.10)%float <$> loc df i ARS ∧
  (∀ c, c ∉ [Contributions_Etat; Prestations_Logement; ARS] →
        loc (_add_caf_trends df) i c = loc df i c).
Proof.
  intros Hi Hy.
  assert (∀ c, loc (_add_caf_trends df) i c
               = scaled (targeting c [(Contributions_Etat, 1.08);
                                      (Prestations_Logement, 1.12);
                                      (ARS, 1.10)]%float) <$> loc df i c) as Hcell.
  { intros c. rewrite loc_add_caf_trends, Hi. unfold multipliers_for.
    by rewrite rules_for_from_2022. }
  repeat split; try (rewrite Hcell; reflexivity).
  intros c Hc. rewrite Hcell. rewrite !not_elem_of_cons in Hc. destruct_and!.
  destruct c; try congruence; unfold scaled, targeting; simpl;
    by destruct (loc df i _).
Qed.

Lemma X7_trend_pass_from_2022_witness :
  (Annee (constant_frame [2030] 100) !! 0%nat = Some 2030 ∧ 2022 ≤ 2030) ∧
  loc (_add_caf_trends (constant_frame [2030] 100)) 0 Contributions_Etat
    = Some (100 * 1.08)%float.
Proof.
  split; [split; [reflexivity | lia]|].
  destruct (X7_trend_pass_from_2022 (constant_frame [2030] 100) 0 2030)
    as (H & _); [reflexivity | lia |].
  rewrite H. reflexivity.
Defined.

Lemma Annee_iter_add_caf_trends k df : Annee (Nat.iter k _add_caf_trends df) = Annee df.
Proof.
  induction k as [|k IH]; [done|]. simpl. by rewrite Annee_add_caf_trends.
Qed.

(** X8. Running the trend pass k times applies the multipliers of a cell k
    times over: each further run multiplies again, so no number of runs
    brings an adjusted cell back to a fixed value by itself. *)
Theorem X8_trend_pass_iterated (k : nat) (df : DataFrame) (i : nat) (y : Z)
    (c : Column) (v : float) :
  Annee df !! i = Some y → loc df i c = Some v →
  loc (Nat.iter k _add_caf_trends df) i c
    = Some (Nat.iter k (scaled (multipliers_for y c)) v).
Proof.
  intros Hy Hv. induction k as [|k IH]; [exact Hv|].
  simpl. by rewrite loc_add_caf_trends, Annee_iter_add_caf_trends, Hy, IH.
Qed.

Lemma X8_trend_pass_iterated_witness :
  (Annee early_frame !! 0%nat = Some 2002 ∧
   loc early_frame 0 Prestations_Familiales = Some 100%float) ∧
  loc (Nat.iter 3 _add_caf_trends early_frame) 0 Prestations_Familiales
    = Some (100 * 1.15 * 1.15 * 1.15)%float.
Proof.
  split; [split; reflexivity|].
  rewrite (X8_trend_pass_iterated 3 early_frame 0 2002 Prestations_Familiales 100
             eq_refl eq_refl).
  reflexivity.
Defined.

(** ** Cells of the generated frame *)

(** X9. Row i of the generated frame is the year start_year + i, and each
    of its cells is the value its series method produced for that year,
    multiplied by the multipliers the trend pass applies to that year and
    column. *)
Theorem X9_generated_cell {St : Type} (normal : float → float → Rand St float)
    (self : Analyzer) (s : St) (i : nat) :
  Z.of_nat i < end_year self - start_year self + 1 →
  Annee (generate_financial_data normal self s).1 !! i
    = Some (start_year self + Z.of_nat i) ∧
  ∀ c, ∃ v,
    loc (untrended normal self s) i c = Some v ∧
    loc (generate_financial_data normal self s).1 i c
      = Some (scaled (multipliers_for (start_year self + Z.of_nat i) c) v).
Proof.
  intros Hi.
  assert (date_range (start_year self) (end_year self) !! i
          = Some (start_year self + Z.of_nat i)) as Hyear.
  { unfold date_range. by apply lookup_seqZ_lt. }
  split; [by rewrite generate_financial_data_Annee|].
  intros c.
  assert (is_Some (loc (untrended normal self s) i c)) as [v Hv].
  { unfold loc. apply lookup_lt_is_Some.
    rewrite length_cols_untrended, length_date_range. lia. }
  exists v. split; [exact Hv|].
  unfold loc at 1. rewrite generate_financial_data_cols.
  change (loc (_add_caf_trends (untrended normal self s)) i c = Some (scaled
    (multipliers_for (start_year self + Z.of_nat i) c) v)).
  rewrite loc_add_caf_trends. cbn [untrended Annee]. by rewrite Hyear, Hv.
Qed.

Lemma X9_generated_cell_witness :
  (Z.of_nat 18 < end_year (__init__ "Mayotte") - start_year (__init__ "Mayotte") + 1) ∧
  Annee (generate_financial_data (fixed_noise 1) (__init__ "Mayotte") 0%nat).1 !! 18%nat
    = Some 2020.
Proof.
  assert (Z.of_nat 18 < end_year (__init__ "Mayotte")
                        - start_year (__init__ "Mayotte") + 1) as H.
  { simpl. lia. }
  split; [exact H|].
  destruct (X9_generated_cell (fixed_noise 1) (__init__ "Mayotte") 0%nat 18 H)
    as (Hy & _).
  rewrite Hy. reflexivity.
Defined.

(** ** Draws made by a run *)

Lemma draw_n_counts (normal : float → float → Rand nat float) loc scale n k :
  counts_draws normal → (draw_n normal loc scale n k).2 = (k + n)%nat.
Proof.
  intros H. revert k. induction n as [|n IH]; intros k.
  - simpl. lia.
  - cbn [draw_n]. run_rand. rewrite IH, H. lia.
Qed.

Lemma for_enumerate_counts (normal : float → float → Rand nat float) loc scale
    (f : nat → Z → float → float) k0 dates k :
  counts_draws normal →
  (for_enumerate (λ i date, noise <- normal loc scale ;; ret (f i date noise))
     k0 dates k).2 = (k + length dates)%nat.
Proof.
  intros H. rewrite for_enumerate_draws. cbn [snd]. by apply draw_n_counts.
Qed.

Ltac count_draws normal H :=
  unfold _simulate_prestations, _simulate_total_revenue,
    _simulate_social_contributions, _simulate_state_contributions,
    _simulate_other_revenue, _simulate_total_expenses, _simulate_family_benefits,
    _simulate_housing_benefits, _simulate_solidarity_benefits,
    _simulate_management_costs, _simulate_coverage_rate, _simulate_management_ratio,
    _simulate_account_balance, _simulate_family_allocations, _simulate_ars,
    _simulate_apl, _simulate_rsa, _simulate_birth_grant; cbv zeta;
  repeat (rewrite (for_enumerate_counts normal) by exact H).

(** X10. With a generator whose state counts its draws, a run over n years
    makes exactly 18 n draws (432 for 2002-2025): the allocataires series
    draws nothing and each of the other eighteen draws once per year. The
    series draw one after the other, in the order the frame is filled, so
    the j-th of them uses draws j n to (j + 1) n - 1 and no two series
    share a draw. *)
Theorem X10_draws_per_run (normal : float → float → Rand nat float)
    (self : Analyzer) (k : nat) :
  counts_draws normal →
  let n := length (date_range (start_year self) (end_year self)) in
  (generate_financial_data normal self k).2 = (k + 18 * n)%nat ∧
  (∀ c, state_before normal self k c = (k + draw_rank c * n)%nat) ∧
  (∀ c, c ≠ Nombre_Allocataires →
        (simulate normal self c (state_before normal self k c)).2
        = (k + (draw_rank c + 1) * n)%nat).
Proof.
  intros H n. subst n.
  assert (∀ c, state_before normal self k c
               = (k + draw_rank c * length (date_range (start_year self)
                                              (end_year self)))%nat) as Hbefore.
  { intros c. destruct c; cbn [state_before draw_rank];
      count_draws normal H; lia. }
  split; [|split].
  - unfold generate_financial_data. run_rand. count_draws normal H. lia.
  - exact Hbefore.
  - intros c Hc. rewrite Hbefore.
    destruct c; try congruence; cbn [simulate draw_rank];
      count_draws normal H; lia.
Qed.

Lemma X10_draws_per_run_witness :
  counts_draws (fixed_noise 1) ∧
  (generate_financial_data (fixed_noise 1) (__init__ "Guyane") 0%nat).2 = 432%nat.
Proof.
  assert (counts_draws (fixed_noise 1)) as H.
  { intros loc scale k. reflexivity. }
  split; [exact H|].
  destruct (X10_draws_per_run (fixed_noise 1) (__init__ "Guyane") 0%nat H) as (Ht & _).
  rewrite Ht. reflexivity.
Defined.

(** ** Recommendations *)

Lemma has_tag_spec self tag :
  has_tag self tag = true ↔ tag ∈ specificites (config self).
Proof. unfold has_tag. apply bool_decide_eq_true. Qed.

Lemma elem_of_if_block (b : bool) (x : string) (l : list string) :
  x ∈ (if b then l else []) ↔ b = true ∧ x ∈ l.
Proof.
  destruct b.
  - split; [by split | by intros [_ ?]].
  - split; [by intros ?%elem_of_nil | by intros [? _]].
Qed.

Lemma elem_of_blocks (p f j i : bool) (x : string) (lp lf lj li general : list string) :
  x ∈ (if p then lp else []) ++ (if f then lf else []) ++ (if j then lj else []) ++
      (if i then li else []) ++ general
  ↔ (p = true ∧ x ∈ lp) ∨ (f = true ∧ x ∈ lf) ∨ (j = true ∧ x ∈ lj) ∨
    (i = true ∧ x ∈ li) ∨ x ∈ general.
Proof. rewrite !elem_of_app, !elem_of_if_block. reflexivity. Qed.

(** Decides the closed memberships of a goal by evaluation. *)
Ltac eval_elem :=
  repeat match goal with
  | |- context [@elem_of string (list string) _ ?x ?l] =>
      let H := fresh in
      first
        [ assert (x ∈ l ↔ True) as H
            by (split; [done | intros _; apply (bool_decide_unpack _);
                               vm_compute; exact I])
        | assert (x ∈ l ↔ False) as H
            by (split; [apply (bool_decide_eq_false_1 _); vm_compute; reflexivity
                       | done]) ];
      rewrite H; clear H
  end.

(** X11. The recommendations always end with the same three general
    lines, and before them come two lines for each of the tags precarite,
    familles_nombreuses, jeunesse and isolement that is literally among the
    profile's tags: a tag's first line is printed exactly when the tag is
    present, and the number of lines is 3 plus twice the number of these
    tags the profile holds. *)
Theorem X11_recommandations (self : Analyzer) :
  (∃ specific, recommandations self = specific ++
     ["• Améliorer la digitalisation des services";
      "• Renforcer la prévention des impayés et le recouvrement";
      "• Optimiser la gestion des fonds pour maintenir l'équilibre financier"]) ∧
  length (recommandations self)
    = (3 + 2 * length (List.filter (has_tag self) recommendation_tags))%nat ∧
  ("• Renforcer les dispositifs de lutte contre la précarité" ∈ recommandations self
     ↔ "precarite" ∈ specificites (config self)) ∧
  ("• Adapter les prestations aux spécificités des familles nombreuses"
     ∈ recommandations self ↔ "familles_nombreuses" ∈ specificites (config self)) ∧
  ("• Renforcer les aides à l'éducation et la formation" ∈ recommandations self
     ↔ "jeunesse" ∈ specificites (config self)) ∧
  ("• Développer les services à distance et la dématérialisation"
     ∈ recommandations self ↔ "isolement" ∈ specificites (config self)).
Proof.
  rewrite <- !has_tag_spec. unfold recommandations, recommendation_tags.
  cbn [List.filter].
  split; [|split].
  - eexists. rewrite !app_assoc. reflexivity.
  - destruct (has_tag self "precarite"), (has_tag self "familles_nombreuses"),
      (has_tag self "jeunesse"), (has_tag self "isolement"); reflexivity.
  - generalize (has_tag self "precarite"), (has_tag self "familles_nombreuses"),
      (has_tag self "jeunesse"), (has_tag self "isolement").
    intros p f j i.
    split; [|split; [|split]]; (etrans; [apply elem_of_blocks|]); eval_elem; tauto.
Qed.

(** ** Growth figures on short columns *)

Lemma last_is_Some {A} (l : list A) : l ≠ [] → is_Some (last l).
Proof.
  intros H. destruct l as [|x l] using rev_ind; [done|].
  rewrite last_snoc. by eexists.
Qed.

Lemma growth_percentage_None s : growth_percentage s = None ↔ s = [].
Proof.
  split; [|by intros ->].
  intros H. destruct s as [|x s]; [done|].
  destruct (last_is_Some (x :: s)) as [l Hl]; [done|].
  unfold growth_percentage, iloc_last, iloc_first in H. rewrite Hl in H.
  simpl in H. discriminate.
Qed.

(** X12. The growth percentage is undefined (an IndexError in the source)
    exactly on an empty column. On a generated frame the revenue growth and
    the allocataires growth are therefore defined when start_year is at
    most end_year, and are both undefined on the empty frame that a
    reversed year range produces. *)
Theorem X12_growth_defined_iff_rows {St : Type}
    (normal : float → float → Rand St float) (self : Analyzer) (s : St) :
  (∀ col, growth_percentage col = None ↔ col = []) ∧
  (start_year self ≤ end_year self →
     is_Some (revenue_growth (generate_financial_data normal self s).1) ∧
     is_Some (allocataires_growth (generate_financial_data normal self s).1)) ∧
  (end_year self < start_year self →
     revenue_growth (generate_financial_data normal self s).1 = None ∧
     allocataires_growth (generate_financial_data normal self s).1 = None).
Proof.
  assert (∀ c, length (cols (generate_financial_data normal self s).1 c)
               = Z.to_nat (end_year self - start_year self + 1)) as Hlen.
  { intros c. rewrite generate_financial_data_cols, length_cols_add_caf_trends,
      length_cols_untrended. apply length_date_range. }
  split; [apply growth_percentage_None|]. split.
  - intros Hle. unfold revenue_growth, allocataires_growth.
    split; apply not_eq_None_Some; rewrite growth_percentage_None;
      intros Hnil; apply (f_equal length) in Hnil; rewrite Hlen in Hnil;
      simpl in Hnil; lia.
  - intros Hlt. unfold revenue_growth, allocataires_growth.
    split; apply growth_percentage_None; apply length_zero_iff_nil;
      rewrite Hlen; lia.
Qed.

(** ** The threshold year *)

(** X13. In the threshold year 2010 itself every year-gated factor is
    still exactly 1, for every territory: the state contributions, the
    coverage rate and the account balance first grow, and the management
    ratio first falls, in 2011. *)
Theorem X13_gated_factor_at_threshold (self : Analyzer) (f : GatedField) :
  gated_factor f self 2010 = 1%float ∧
  gated_factor f self 2011 ≠ 1%float.
Proof.
  destruct f; cbn [gated_factor];
    unfold state_increase, coverage_improvement, management_improvement,
      balance_improvement; rewrite ?by_tier_tier_of;
    try destruct (tier_of self); split; vm_compute; try reflexivity;
    intros H; discriminate H.
Qed.

(** ** What the territory name is used for *)

Lemma for_enumerate_shape_ext {St} (normal : float → float → Rand St float) loc scale
    (f g : nat → Z → float → float) k dates s :
  (∀ i date noise, f i date noise = g i date noise) →
  for_enumerate (λ i date, noise <- normal loc scale ;; ret (f i date noise)) k dates s
  = for_enumerate (λ i date, noise <- normal loc scale ;; ret (g i date noise)) k dates s.
Proof.
  intros H. rewrite !for_enumerate_draws. f_equal.
  apply imap_ext. intros i [d x] _. apply H.
Qed.

Lemma by_tier_same {A} a b (x y z : A) :
  same_groups a b → by_tier a x y z = by_tier b x y z.
Proof.
  intros (H1 & H2 & _). unfold by_tier. repeat case_decide; tauto || reflexivity.
Qed.

Ltac same_series a b Hcfg Hg :=
  cbv zeta; rewrite ?Hcfg;
  apply for_enumerate_shape_ext; intros i date noise;
  unfold state_increase, family_benefits_multiplier, solidarity_benefits_multiplier,
    family_allocations_multiplier, ars_multiplier, rsa_multiplier,
    birth_grant_multiplier, has_tag;
  rewrite ?Hcfg, ?(by_tier_same a b _ _ _ Hg); try reflexivity.

Lemma simulate_methods_same {St} (normal : float → float → Rand St float) a b :
  config a = config b → same_groups a b →
  ∀ dates s,
    _simulate_allocataires a dates = _simulate_allocataires b dates ∧
    _simulate_prestations normal a dates s = _simulate_prestations normal b dates s ∧
    _simulate_total_revenue normal a dates s = _simulate_total_revenue normal b dates s ∧
    _simulate_social_contributions normal a dates s
      = _simulate_social_contributions normal b dates s ∧
    _simulate_state_contributions normal a dates s
      = _simulate_state_contributions normal b dates s ∧
    _simulate_other_revenue normal a dates s = _simulate_other_revenue normal b dates s ∧
    _simulate_total_expenses normal a dates s = _simulate_total_expenses normal b dates s ∧
    _simulate_family_benefits normal a dates s
      = _simulate_family_benefits normal b dates s ∧
    _simulate_housing_benefits normal a dates s
      = _simulate_housing_benefits normal b dates s ∧
    _simulate_solidarity_benefits normal a dates s
      = _simulate_solidarity_benefits normal b dates s ∧
    _simulate_management_costs normal a dates s
      = _simulate_management_costs normal b dates s ∧
    _simulate_coverage_rate normal a dates s = _simulate_coverage_rate normal b dates s ∧
    _simulate_management_ratio normal a dates s
      = _simulate_management_ratio normal b dates s ∧
    _simulate_account_balance normal a dates s
      = _simulate_account_balance normal b dates s ∧
    _simulate_family_allocations normal a dates s
      = _simulate_family_allocations normal b dates s ∧
    _simulate_ars normal a dates s = _simulate_ars normal b dates s ∧
    _simulate_apl normal a dates s = _simulate_apl normal b dates s ∧
    _simulate_rsa normal a dates s = _simulate_rsa normal b dates s ∧
    _simulate_birth_grant normal a dates s = _simulate_birth_grant normal b dates s.
Proof.
  intros Hcfg Hg dates s.
  split.
  { unfold _simulate_allocataires. rewrite Hcfg. apply imap_ext. intros i d _.
    cbv zeta. by rewrite (by_tier_same a b _ _ _ Hg). }
  unfold _simulate_prestations, _simulate_total_revenue,
    _simulate_social_contributions, _simulate_state_contributions,
    _simulate_other_revenue, _simulate_total_expenses, _simulate_family_benefits,
    _simulate_housing_benefits, _simulate_solidarity_benefits,
    _simulate_management_costs, _simulate_coverage_rate, _simulate_management_ratio,
    _simulate_account_balance, _simulate_family_allocations, _simulate_ars,
    _simulate_apl, _simulate_rsa, _simulate_birth_grant.
  repeat (split; [same_series a b Hcfg Hg|]); try (same_series a b Hcfg Hg).
  destruct Hg as (H1 & _ & H3). repeat case_decide; tauto || reflexivity.
Qed.

Ltac split_methods H :=
  lazymatch type of H with
  | ∀ d st, @?A d st ∧ @?B d st =>
      let E := fresh "E" in
      let R := fresh "R" in
      pose proof (λ d st, proj1 (H d st)) as E;
      pose proof (λ d st, proj2 (H d st)) as R;
      cbv beta in E, R; clear H; split_methods R
  | _ => idtac
  end.

Ltac rewrite_methods :=
  repeat match goal with
  | E : ∀ d st, _ = _ |- _ => rewrite ?E; clear E
  end.

Lemma untrended_same {St} (normal : float → float → Rand St float) a b s c :
  config a = config b → start_year a = start_year b → end_year a = end_year b →
  same_groups a b →
  cols (untrended normal a s) c = cols (untrended normal b s) c.
Proof.
  intros Hcfg Hs He Hg.
  pose proof (simulate_methods_same normal a b Hcfg Hg) as Hall.
  pose proof (λ d, proj1 (Hall d s)) as Ea.
  pose proof (λ d st, proj2 (Hall d st)) as Hrest. cbv beta in Ea, Hrest.
  clear Hall. split_methods Hrest.
  destruct c; cbn [untrended cols simulate state_before]; rewrite Hs, He, ?Ea;
    rewrite_methods; reflexivity.
Qed.

Lemma generate_cols_same {St} (normal : float → float → Rand St float) a b s c :
  config a = config b → start_year a = start_year b → end_year a = end_year b →
  same_groups a b →
  cols (generate_financial_data normal a s).1 c
  = cols (generate_financial_data normal b s).1 c.
Proof.
  intros Hcfg Hs He Hg. rewrite !generate_financial_data_cols.
  apply add_caf_trends_ext.
  - cbn [untrended Annee]. by rewrite Hs, He.
  - intros c'. by apply untrended_same.
Qed.

(** X14. The territory name reaches the generated numbers only through the
    profile it resolves to and through its membership of three hard-coded
    groups (Mayotte and Guyane; La Réunion and Polynésie française;
    Saint-Pierre-et-Miquelon and Wallis-et-Futuna). Two analyzers that
    agree on these and on the year range produce the same frame from the
    same draws. *)
Theorem X14_name_used_through_groups {St : Type}
    (normal : float → float → Rand St float) (a b : Analyzer) (s : St) :
  config a = config b → start_year a = start_year b → end_year a = end_year b →
  same_groups a b →
  Annee (generate_financial_data normal a s).1
    = Annee (generate_financial_data normal b s).1 ∧
  ∀ c, cols (generate_financial_data normal a s).1 c
       = cols (generate_financial_data normal b s).1 c.
Proof.
  intros Hcfg Hs He Hg. split.
  - by rewrite !generate_financial_data_Annee, Hs, He.
  - intros c. by apply generate_cols_same.
Qed.

Lemma unknown_name_groups name :
  name ∉ preset_table.*1 → same_groups (__init__ name) (__init__ "default").
Proof.
  intros H. cbn in H. rewrite !not_elem_of_cons in H. destruct_and!.
  unfold same_groups. cbn [territoire __init__].
  rewrite !elem_of_cons, !elem_of_nil.
  repeat split; intros Hin; exfalso; destruct_or!; congruence.
Qed.

Lemma X14_name_used_through_groups_witness :
  (config (__init__ "Clipperton") = config (__init__ "default") ∧
   start_year (__init__ "Clipperton") = start_year (__init__ "default") ∧
   end_year (__init__ "Clipperton") = end_year (__init__ "default") ∧
   same_groups (__init__ "Clipperton") (__init__ "default")) ∧
  cols (generate_financial_data (fixed_noise 1) (__init__ "Clipperton") 0%nat).1 RSA
  = cols (generate_financial_data (fixed_noise 1) (__init__ "default") 0%nat).1 RSA.
Proof.
  assert (same_groups (__init__ "Clipperton") (__init__ "default")) as Hg.
  { apply unknown_name_groups. cbn. rewrite !not_elem_of_cons.
    repeat split; try discriminate. apply not_elem_of_nil. }
  split; [repeat split; try reflexivity; apply Hg|].
  apply (X14_name_used_through_groups (fixed_noise 1) (__init__ "Clipperton")
           (__init__ "default") 0%nat eq_refl eq_refl eq_refl Hg).
Defined.

(** ** Values without noise *)

Lemma generate_cols_fixed {St1 St2} (normal1 : float → float → Rand St1 float)
    (normal2 : float → float → Rand St2 float) c0 self s1 s2 c :
  noise_fixed_at c0 normal1 → noise_fixed_at c0 normal2 →
  cols (generate_financial_data normal1 self s1).1 c
  = cols (generate_financial_data normal2 self s2).1 c.
Proof.
  intros H1 H2. rewrite !generate_financial_data_cols.
  apply add_caf_trends_ext; [reflexivity|].
  intros c'. cbn [untrended cols]. by apply (simulate_fixed _ _ c0).
Qed.

Lemma elem_of_all_columns c : In c all_columns.
Proof. destruct c; simpl; tauto. Qed.

Lemma all_positive_spec df :
  all_positive df = true → ∀ c v, v ∈ cols df c → positive_finite v = true.
Proof.
  unfold all_positive. rewrite forallb_forall. intros Hall c v Hv.
  specialize (Hall c (elem_of_all_columns c)). rewrite forallb_forall in Hall.
  apply Hall. by apply list_elem_of_In.
Qed.

Lemma all_positive_known name :
  name ∈ "default" :: territoires →
  all_positive (generate_financial_data (fixed_noise 1) (__init__ name) 0%nat).1 = true.
Proof.
  unfold territoires. rewrite !elem_of_cons, elem_of_nil. intros H.
  repeat destruct H as [H|H]; try contradiction; subst name;
    vm_compute; reflexivity.
Qed.

(** X15. With the noise factor fixed at 1.0, every value of the frame
    generated for 2002-2025 is finite and strictly positive, in every
    column and every year, for every territory name whatsoever (listed or
    not) and whatever the generator's starting state. *)
Theorem X15_values_positive_without_noise {St : Type}
    (normal : float → float → Rand St float) (name : string) (s : St)
    (c : Column) (v : float) :
  noise_fixed_at 1 normal →
  v ∈ cols (generate_financial_data normal (__init__ name) s).1 c →
  positive_finite v = true.
Proof.
  intros Hfix.
  rewrite (generate_cols_fixed normal (fixed_noise 1) 1 _ s 0%nat c Hfix)
    by (intros loc scale k; reflexivity).
  assert (∃ known, known ∈ "default" :: territoires ∧
            cols (generate_financial_data (fixed_noise 1) (__init__ name) 0%nat).1 c
            = cols (generate_financial_data (fixed_noise 1) (__init__ known) 0%nat).1 c)
    as (known & Hknown & ->).
  { destruct (decide (name ∈ preset_table.*1)) as [Hin|Hout].
    - exists name. split; [by right|done].
    - exists "default". split; [by left|].
      apply generate_cols_same; [|reflexivity|reflexivity|by apply unknown_name_groups].
      cbn [config __init__]. rewrite (get_territoire_config_default name) by done.
      symmetry. by vm_compute. }
  apply (all_positive_spec _ (all_positive_known known Hknown)).
Qed.

Lemma X15_values_positive_without_noise_witness :
  (noise_fixed_at 1 (fixed_noise 1) ∧
   42%float ∈ cols (generate_financial_data (fixed_noise 1) (__init__ "Mayotte") 0%nat).1
                RSA) ∧
  positive_finite 42 = true.
Proof.
  assert (noise_fixed_at 1 (fixed_noise 1)) as Hfix.
  { intros loc scale k. reflexivity. }
  assert (42%float ∈ cols (generate_financial_data (fixed_noise 1)
                             (__init__ "Mayotte") 0%nat).1 RSA) as Hin.
  { apply list_elem_of_lookup. exists 0%nat. vm_compute. reflexivity. }
  split; [by split|].
  apply (X15_values_positive_without_noise (fixed_noise 1) "Mayotte" 0%nat RSA 42
           Hfix Hin).
Defined.
